(** * Mars lander: the integrator and the autopilot of [lander.cpp]

    A shallow embedding of [autopilot], [numerical_dynamics] and
    [initialize_simulation] of [src/lander.cpp], and the properties the
    specification states about them.

    The C++ code computes with [double].  The embedding is written once,
    over an interface [DoubleOps] of the operations the code uses, and is
    read at two instances:
    - [R_double], the real numbers: the idealised arithmetic in which the
      specification states its formulas (rounding, overflow and NaN are
      outside this reading);
    - [float_double], the kernel's binary64 floats: the arithmetic the
      program runs with, used to evaluate the code on concrete states.

    Properties that only depend on the control flow are proved for every
    instance; the ones that need the laws of arithmetic are proved at
    [R_double]; what a NaN does to the two functions is proved at
    [float_double], for every state.

    [vector3d] belongs to [lander.h], which is not among the sources: its
    normalisation is modelled from the spec, and for what happens at a
    zero magnitude the two functions are also read over any
    normalisation. *)

From Stdlib Require Import Reals Lra QArith Qreals ZArith Bool List String.
From Stdlib Require PrimFloat Uint63 FloatOps FloatAxioms SpecFloat.
Import ListNotations.

Set Implicit Arguments.

(* ================================================================== *)
(** ** The arithmetic of [double] *)

(** The operations of [double] that [lander.cpp] uses.  [lit] reads a
    decimal literal of the source, written as the rational it denotes. *)
Class DoubleOps (double : Type) : Type := {
  lit  : Q -> double;
  dadd : double -> double -> double;
  dsub : double -> double -> double;
  dmul : double -> double -> double;
  ddiv : double -> double -> double;
  dopp : double -> double;
  dsqrt : double -> double;
  dle : double -> double -> bool;
  dlt : double -> double -> bool;
  deq : double -> double -> bool
}.

Arguments lit {double _} q%_Q.

Declare Scope dbl_scope.
Delimit Scope dbl_scope with dbl.
Notation "x + y" := (dadd x y) : dbl_scope.
Notation "x - y" := (dsub x y) : dbl_scope.
Notation "x * y" := (dmul x y) : dbl_scope.
Notation "x / y" := (ddiv x y) : dbl_scope.
Notation "- x" := (dopp x) : dbl_scope.
Notation "x <=? y" := (dle x y) : dbl_scope.
Notation "x <? y" := (dlt x y) : dbl_scope.
Notation "x =? y" := (deq x y) : dbl_scope.

(** *** The real numbers *)

Definition Rle_bool (x y : R) : bool := if Rle_dec x y then true else false.
Definition Rlt_bool (x y : R) : bool := if Rlt_dec x y then true else false.
Definition Req_bool (x y : R) : bool := if Req_dec_T x y then true else false.

(** In this reading a quotient by zero is a real number ([x / 0] is
    [x * / 0]), where binary64 gives an infinity or NaN: at a vector of
    zero magnitude the two readings part, and what the program does there
    is proved at [float_double]. *)
#[export] Instance R_double : DoubleOps R := {|
  lit := Q2R;
  dadd := Rplus;
  dsub := Rminus;
  dmul := Rmult;
  ddiv := Rdiv;
  dopp := Ropp;
  dsqrt := sqrt;
  dle := Rle_bool;
  dlt := Rlt_bool;
  deq := Req_bool
|}.

(** *** binary64 *)

(** An integer below 2^53 in absolute value, as the float it is. *)
Definition float_of_Z (z : Z) : PrimFloat.float :=
  match z with
  | Z0 => PrimFloat.zero
  | Zpos _ => PrimFloat.of_uint63 (Uint63.of_Z z)
  | Zneg p => PrimFloat.opp (PrimFloat.of_uint63 (Uint63.of_Z (Zpos p)))
  end.

(** A decimal literal [n / 10^k] of the source: as long as [n] and [10^k]
    are below 2^53 (every literal of [lander.cpp] is), the correctly
    rounded quotient is the double the C++ compiler reads the literal as. *)
Definition float_lit (q : Q) : PrimFloat.float :=
  PrimFloat.div (float_of_Z (Qnum q)) (float_of_Z (Zpos (Qden q))).

#[export] Instance float_double : DoubleOps PrimFloat.float := {|
  lit := float_lit;
  dadd := PrimFloat.add;
  dsub := PrimFloat.sub;
  dmul := PrimFloat.mul;
  ddiv := PrimFloat.div;
  dopp := PrimFloat.opp;
  dsqrt := PrimFloat.sqrt;
  dle := PrimFloat.leb;
  dlt := PrimFloat.ltb;
  deq := PrimFloat.eqb
|}.

(* ================================================================== *)
(** ** The data of [lander.h] *)

(** Modelled from the spec: the enumeration [parachute_status_t] of
    [lander.h], which is not among the sources; [lander.cpp] names
    [NOT_DEPLOYED] and [DEPLOYED], the spec adds [LOST] (section 3). *)
Inductive parachute_status_t : Set := NOT_DEPLOYED | DEPLOYED | LOST.

Definition parachute_status_eqb (a b : parachute_status_t) : bool :=
  match a, b with
  | NOT_DEPLOYED, NOT_DEPLOYED | DEPLOYED, DEPLOYED | LOST, LOST => true
  | _, _ => false
  end.

(** The place of a status in the order NOT_DEPLOYED, DEPLOYED, LOST. *)
Definition status_rank (p : parachute_status_t) : nat :=
  match p with NOT_DEPLOYED => 0 | DEPLOYED => 1 | LOST => 2 end.

Section Vector3d.

Context {double : Type} {D : DoubleOps double}.
Local Open Scope dbl_scope.

(** Modelled from the spec: the class [vector3d] of [lander.h], which is
    not among the sources: three components with addition, subtraction,
    scaling, the dot product, the magnitude [abs] and the normalisation
    [norm], which divides by the magnitude and has no guard of its own
    (spec, sections 2 and 3). *)
Record vector3d : Type := Vector3d { vx : double; vy : double; vz : double }.

Definition v3_add (u v : vector3d) : vector3d :=
  Vector3d (vx u + vx v) (vy u + vy v) (vz u + vz v).
Definition v3_sub (u v : vector3d) : vector3d :=
  Vector3d (vx u - vx v) (vy u - vy v) (vz u - vz v).
Definition v3_scale (a : double) (v : vector3d) : vector3d :=
  Vector3d (a * vx v) (a * vy v) (a * vz v).
Definition v3_div (v : vector3d) (a : double) : vector3d :=
  Vector3d (vx v / a) (vy v / a) (vz v / a).
Definition v3_dot (u v : vector3d) : double :=
  vx u * vx v + vy u * vy v + vz u * vz v.
Definition abs2 (v : vector3d) : double := v3_dot v v.
Definition abs (v : vector3d) : double := dsqrt (abs2 v).
Definition norm (v : vector3d) : vector3d := v3_div v (abs v).

End Vector3d.

Arguments vector3d double : clear implicits.
Arguments Vector3d {double} vx vy vz.

(** The overloaded operators of [vector3d], told apart by their carets. *)
Notation "u ^+^ v" := (v3_add u v) (at level 50, left associativity).
Notation "u ^-^ v" := (v3_sub u v) (at level 50, left associativity).
Notation "a *^ v" := (v3_scale a v) (at level 40, left associativity).
Notation "v ^/ a" := (v3_div v a) (at level 40, left associativity).
Notation "u ^*^ v" := (v3_dot u v) (at level 40, left associativity).

Section Lander.

Context {double : Type} {D : DoubleOps double}.
Local Open Scope dbl_scope.

Local Abbreviation vector3d := (vector3d double).

(** The global variables [lander.cpp] reads and writes. *)
Record State : Type := mkState {
  position : vector3d;
  velocity : vector3d;
  orientation : vector3d;
  fuel : double;
  throttle : double;
  delta_t : double;
  parachute_status : parachute_status_t;
  stabilized_attitude : bool;
  autopilot_enabled : bool;
  scenario : Z;
  scenario_description : list string
}.

Definition set_position (x : vector3d) (s : State) : State :=
  mkState x (velocity s) (orientation s) (fuel s) (throttle s) (delta_t s)
    (parachute_status s) (stabilized_attitude s) (autopilot_enabled s)
    (scenario s) (scenario_description s).
Definition set_velocity (x : vector3d) (s : State) : State :=
  mkState (position s) x (orientation s) (fuel s) (throttle s) (delta_t s)
    (parachute_status s) (stabilized_attitude s) (autopilot_enabled s)
    (scenario s) (scenario_description s).
Definition set_orientation (x : vector3d) (s : State) : State :=
  mkState (position s) (velocity s) x (fuel s) (throttle s) (delta_t s)
    (parachute_status s) (stabilized_attitude s) (autopilot_enabled s)
    (scenario s) (scenario_description s).
Definition set_throttle (x : double) (s : State) : State :=
  mkState (position s) (velocity s) (orientation s) (fuel s) x (delta_t s)
    (parachute_status s) (stabilized_attitude s) (autopilot_enabled s)
    (scenario s) (scenario_description s).
Definition set_delta_t (x : double) (s : State) : State :=
  mkState (position s) (velocity s) (orientation s) (fuel s) (throttle s) x
    (parachute_status s) (stabilized_attitude s) (autopilot_enabled s)
    (scenario s) (scenario_description s).
Definition set_parachute_status (x : parachute_status_t) (s : State) : State :=
  mkState (position s) (velocity s) (orientation s) (fuel s) (throttle s)
    (delta_t s) x (stabilized_attitude s) (autopilot_enabled s)
    (scenario s) (scenario_description s).
Definition set_stabilized_attitude (x : bool) (s : State) : State :=
  mkState (position s) (velocity s) (orientation s) (fuel s) (throttle s)
    (delta_t s) (parachute_status s) x (autopilot_enabled s)
    (scenario s) (scenario_description s).
Definition set_autopilot_enabled (x : bool) (s : State) : State :=
  mkState (position s) (velocity s) (orientation s) (fuel s) (throttle s)
    (delta_t s) (parachute_status s) (stabilized_attitude s) x
    (scenario s) (scenario_description s).
Definition set_scenario_description (x : list string) (s : State) : State :=
  mkState (position s) (velocity s) (orientation s) (fuel s) (throttle s)
    (delta_t s) (parachute_status s) (stabilized_attitude s)
    (autopilot_enabled s) (scenario s) x.

(** The constants of [lander.h] that [lander.cpp] uses; the header is not
    among the sources, so their values are parameters. *)
Record Constants : Type := mkConstants {
  MARS_RADIUS : double;
  GRAVITY : double;
  MARS_MASS : double;
  EXOSPHERE : double;
  UNLOADED_LANDER_MASS : double;
  FUEL_CAPACITY : double;
  FUEL_DENSITY : double;
  DRAG_COEF_LANDER : double;
  DRAG_COEF_CHUTE : double;
  LANDER_SIZE : double
}.

(** Modelled from the spec: the four functions [lander.cpp] calls and does
    not define.  Section 6 of the spec gives their contracts: the first
    three return a value computed from the state, and
    [attitude_stabilization] rewrites [orientation]; it is taken as the
    function that gives the new orientation. *)
Record Environment : Type := mkEnvironment {
  atmospheric_density : vector3d -> double;
  thrust_wrt_world : State -> vector3d;
  safe_to_deploy_parachute : State -> bool;
  attitude_stabilization_orientation : State -> vector3d
}.

Definition attitude_stabilization (E : Environment) (s : State) : State :=
  set_orientation (attitude_stabilization_orientation E s) s.

(* ================================================================== *)
(** ** [autopilot] *)

Section Code.

Variable K : Constants.
Variable E : Environment.

(** The locals of [autopilot], lines 21-24. *)
Definition Kh_const : double := lit 0.02.
Definition Kp_const : double := lit 0.5.
Definition Offset : double := lit 0.5.

Definition descent_rate (s : State) : double :=
  velocity s ^*^ norm (position s).

Definition altitude (s : State) : double :=
  abs (position s) - MARS_RADIUS K.

Definition Pout_const (s : State) : double :=
  Kp_const * (- (lit 0.5 + Kh_const * altitude s + descent_rate s)).

(** Lines 21-43: the locals are computed on entry; [safe_to_deploy_parachute]
    is called, when the altitude test passes, on the state as it is then. *)
Definition autopilot (s0 : State) : State :=
  let descent_rate := descent_rate s0 in
  let altitude := altitude s0 in
  let Pout_const := Kp_const * (- (lit 0.5 + Kh_const * altitude + descent_rate)) in
  let s := set_stabilized_attitude true s0 in
  let s :=
    if Pout_const <=? - Offset then set_throttle (lit 0) s
    else if Pout_const <? lit 1 - Offset then
      set_throttle (Offset + Pout_const) s
    else set_throttle (lit 1) s in
  if (altitude <=? lit 150000) && safe_to_deploy_parachute E s
  then set_parachute_status DEPLOYED s
  else s.

(** The value lines 28-39 assign to [throttle]. *)
Definition throttle_command (s : State) : double :=
  if Pout_const s <=? - Offset then lit 0
  else if Pout_const s <? lit 1 - Offset then Offset + Pout_const s
  else lit 1.

(** The state [autopilot] has built when it reaches line 40, and the test
    of line 40 on it. *)
Definition before_deploy_test (s : State) : State :=
  set_throttle (throttle_command s) (set_stabilized_attitude true s).

Definition deploy_condition (s : State) : bool :=
  (altitude s <=? lit 150000)
  && safe_to_deploy_parachute E (before_deploy_test s).

(* ================================================================== *)
(** ** [numerical_dynamics] *)

(** The locals of [numerical_dynamics], lines 52-64. *)
Definition modulusr (s : State) : double := abs (position s).
Definition modulusv (s : State) : double := abs (velocity s).
Definition normalr (s : State) : vector3d := norm (position s).
Definition normalv (s : State) : vector3d := norm (velocity s).

Definition mass (s : State) : double :=
  UNLOADED_LANDER_MASS K + FUEL_CAPACITY K * FUEL_DENSITY K * fuel s.

Definition gravity_acceleration (s : State) : vector3d :=
  (- GRAVITY K * MARS_MASS K) *^ normalr s ^/ (modulusr s * modulusr s).

Definition drag_lander_acceleration (s : State) : vector3d :=
  (lit 0.5 * atmospheric_density E (position s) * DRAG_COEF_LANDER K
   * lit 3.141592654 * LANDER_SIZE K * LANDER_SIZE K
   * modulusv s * modulusv s) *^ normalv s ^/ mass s.

Definition thrust_acceleration (s : State) : vector3d :=
  thrust_wrt_world E s ^/ mass s.

Definition drag_chute_acceleration (s : State) : vector3d :=
  (lit 0.5 * atmospheric_density E (position s) * DRAG_COEF_CHUTE K
   * lit 20 * LANDER_SIZE K * LANDER_SIZE K
   * modulusv s * modulusv s) *^ normalv s ^/ mass s.

(** Lines 66-83.  Every local above is computed from the state on entry,
    before [position] is assigned. *)
Definition numerical_dynamics (s : State) : State :=
  let s1 :=
    if parachute_status_eqb (parachute_status s) DEPLOYED then
      let acceleration :=
        gravity_acceleration s ^-^ drag_lander_acceleration s
        ^-^ drag_chute_acceleration s ^+^ thrust_acceleration s in
      let s' := set_position (position s ^+^ delta_t s *^ velocity s) s in
      set_velocity (velocity s' ^+^ delta_t s' *^ acceleration) s'
    else
      let acceleration :=
        gravity_acceleration s ^-^ drag_lander_acceleration s
        ^+^ thrust_acceleration s in
      let s' := set_position (position s ^+^ delta_t s *^ velocity s) s in
      set_velocity (velocity s' ^+^ delta_t s' *^ acceleration) s' in
  let s2 := if autopilot_enabled s1 then autopilot s1 else s1 in
  if stabilized_attitude s2 then attitude_stabilization E s2 else s2.

(** The [acceleration] of the branch lines 66-77 take. *)
Definition acceleration (s : State) : vector3d :=
  if parachute_status_eqb (parachute_status s) DEPLOYED then
    gravity_acceleration s ^-^ drag_lander_acceleration s
    ^-^ drag_chute_acceleration s ^+^ thrust_acceleration s
  else
    gravity_acceleration s ^-^ drag_lander_acceleration s
    ^+^ thrust_acceleration s.

(** The state after lines 66-77, before the autopilot and the attitude
    stabilization are applied. *)
Definition euler_step (s : State) : State :=
  set_velocity (velocity s ^+^ delta_t s *^ acceleration s)
    (set_position (position s ^+^ delta_t s *^ velocity s) s).

(** *** A tick and its outcome *)

(** How a tick can end: with the state updated, or with an error that
    names the vector whose magnitude is zero. *)
Inductive zero_vector : Set := zero_position | zero_velocity.

Inductive tick_result : Type :=
  | Done (s : State)
  | ArithmeticDomainError (which : zero_vector).

(** [numerical_dynamics] returns [void] and has no [throw], no error code
    and no early exit: a call of it ends with the state updated. *)
Definition tick (s : State) : tick_result := Done (numerical_dynamics s).

(** The tick section 7 of the spec asks for: a zero-magnitude vector fed
    to the normalisation ends the tick with an error that names it. *)
Definition guarded_tick (s : State) : tick_result :=
  if abs (position s) =? lit 0 then ArithmeticDomainError zero_position
  else if abs (velocity s) =? lit 0 then ArithmeticDomainError zero_velocity
  else Done (numerical_dynamics s).

End Code.

(** Calls in sequence, the collaborators answering each call as the list
    says (their answers may change from one tick to the next). *)
Definition run_autopilot (K : Constants) (Es : list Environment)
    (s : State) : State :=
  fold_left (fun st E => autopilot K E st) Es s.

Definition run_ticks (K : Constants) (Es : list Environment)
    (s : State) : State :=
  fold_left (fun st E => numerical_dynamics K E st) Es s.

(* ================================================================== *)
(** ** [initialize_simulation] *)

(** Lines 97-106: the ten entries of [scenario_description]. *)
Definition scenario_descriptions : list string :=
  [ "circular orbit";
    "descent from 10km";
    "elliptical orbit, thrust changes orbital plane";
    "polar launch at escape velocity (but drag prevents escape)";
    "elliptical orbit that clips the atmosphere and decays";
    "descent from 200km";
    "geostationary orbit";
    EmptyString; EmptyString; EmptyString ]%string.

(** The seven assignments every full case of the switch makes. *)
Definition preset (p v o : vector3d) (dt : double)
    (ps : parachute_status_t) (sa ae : bool) (s : State) : State :=
  mkState p v o (fuel s) (throttle s) dt ps sa ae
    (scenario s) (scenario_description s).

(** Lines 108-197: cases 7, 8 and 9 (and any other value of [scenario])
    assign nothing. *)
Definition initialize_simulation (K : Constants) (s : State) : State :=
  let s := set_scenario_description scenario_descriptions s in
  let z := lit 0 in
  match scenario s with
  | 0%Z =>
      preset (Vector3d (lit 1.2 * MARS_RADIUS K) z z)
             (Vector3d z (- lit 3247.087385863725) z)
             (Vector3d z (lit 90) z)
             (lit 0.1) NOT_DEPLOYED false false s
  | 1%Z =>
      preset (Vector3d z (- (MARS_RADIUS K + lit 10000)) z)
             (Vector3d z z z)
             (Vector3d z z (lit 90))
             (lit 0.1) NOT_DEPLOYED true false s
  | 2%Z =>
      preset (Vector3d z z (lit 1.2 * MARS_RADIUS K))
             (Vector3d (lit 3500) z z)
             (Vector3d z z (lit 90))
             (lit 0.1) NOT_DEPLOYED false false s
  | 3%Z =>
      preset (Vector3d z z (MARS_RADIUS K + LANDER_SIZE K / lit 2))
             (Vector3d z z (lit 5027))
             (Vector3d z z z)
             (lit 0.1) NOT_DEPLOYED false false s
  | 4%Z =>
      preset (Vector3d z z (MARS_RADIUS K + lit 100000))
             (Vector3d (lit 4000) z z)
             (Vector3d z (lit 90) z)
             (lit 0.1) NOT_DEPLOYED false false s
  | 5%Z =>
      preset (Vector3d z (- (MARS_RADIUS K + EXOSPHERE K)) z)
             (Vector3d z z z)
             (Vector3d z z (lit 90))
             (lit 0.1) NOT_DEPLOYED true false s
  | 6%Z =>
      preset (Vector3d (lit 20429635.87) z z)
             (Vector3d z (lit 1448.025) z)
             (Vector3d z (lit 90) z)
             (lit 0.1) NOT_DEPLOYED false false s
  | _ => s
  end.

(** The states the three functions of [lander.cpp] can produce: what
    [initialize_simulation] builds for one of the scenarios it defines
    (0 to 6), and what a tick or a call of the autopilot makes of such a
    state, whatever the collaborators answer. *)
Inductive reachable (K : Constants) : State -> Prop :=
  | reachable_start (s : State) :
      (0 <= scenario s <= 6)%Z ->
      reachable K (initialize_simulation K s)
  | reachable_tick (E : Environment) (s : State) :
      reachable K s ->
      reachable K (numerical_dynamics K E s)
  | reachable_autopilot (E : Environment) (s : State) :
      reachable K s ->
      reachable K (autopilot K E s).

End Lander.

Arguments State double : clear implicits.
Arguments Constants double : clear implicits.
Arguments Environment double : clear implicits.

(* ================================================================== *)
(** ** The formulas of the specification, over the reals *)

Module Spec.

Local Open Scope R_scope.

(** |v| and unit(v). *)
Definition magnitude (v : vector3d R) : R :=
  sqrt (vx v * vx v + vy v * vy v + vz v * vz v).

Definition unit (v : vector3d R) : vector3d R :=
  Vector3d (vx v / magnitude v) (vy v / magnitude v) (vz v / magnitude v).

Definition dot (u v : vector3d R) : R :=
  vx u * vx v + vy u * vy v + vz u * vz v.

(** Section 4.1, steps 1 to 6. *)
Definition total_mass (K : Constants R) (s : State R) : R :=
  UNLOADED_LANDER_MASS K + fuel s * FUEL_CAPACITY K * FUEL_DENSITY K.

Definition gravity (K : Constants R) (s : State R) : vector3d R :=
  (- GRAVITY K * MARS_MASS K / (magnitude (position s)) ^ 2)
  *^ unit (position s).

(** The area factors of the two drag terms: the lander's cross-section
    factor, written 3.141592654 in the source, and the chute's. *)
Definition lander_area_factor : R := 3.141592654.
Definition chute_area_factor : R := 20.

Definition drag (K : Constants R) (E : Environment R) (Cd factor : R)
    (s : State R) : vector3d R :=
  (/ 2 * atmospheric_density E (position s) * Cd
   * (factor * (LANDER_SIZE K) ^ 2) * (magnitude (velocity s)) ^ 2
   / total_mass K s) *^ unit (velocity s).

Definition lander_drag (K : Constants R) (E : Environment R) :=
  drag K E (DRAG_COEF_LANDER K) lander_area_factor.

Definition chute_drag (K : Constants R) (E : Environment R) :=
  drag K E (DRAG_COEF_CHUTE K) chute_area_factor.

Definition thrust (K : Constants R) (E : Environment R) (s : State R)
    : vector3d R :=
  thrust_wrt_world E s ^/ total_mass K s.

Definition net_acceleration (K : Constants R) (E : Environment R)
    (s : State R) : vector3d R :=
  match parachute_status s with
  | DEPLOYED =>
      gravity K s ^-^ lander_drag K E s ^-^ chute_drag K E s ^+^ thrust K E s
  | _ => gravity K s ^-^ lander_drag K E s ^+^ thrust K E s
  end.

(** The free-fall acceleration of section 8: (-G M / r^2) r^. *)
Definition free_fall_acceleration (K : Constants R) (s : State R)
    : vector3d R :=
  (- (GRAVITY K * MARS_MASS K) / (magnitude (position s)) ^ 2)
  *^ unit (position s).

(** Section 4.2, steps 1 to 4. *)
Definition altitude (K : Constants R) (s : State R) : R :=
  magnitude (position s) - MARS_RADIUS K.

Definition descent_rate (s : State R) : R :=
  dot (velocity s) (unit (position s)).

Definition Kh : R := 0.02.
Definition Kp : R := 0.5.
Definition Offset : R := 0.5.

Definition P (altitude descent_rate : R) : R :=
  Kp * (- (0.5 + Kh * altitude + descent_rate)).

Definition throttle_map (p : R) : R :=
  if Rle_dec p (- Offset) then 0
  else if Rlt_dec p (1 - Offset) then Offset + p
  else 1.

End Spec.

(* ================================================================== *)
(** ** Sample data *)

Section Samples.

Context {double : Type} {D : DoubleOps double}.
Local Open Scope dbl_scope.

(** Values for the constants: Mars and the lander of the exercise, in SI
    units (the mass of Mars is 6.42e23 kg). *)
Definition mars : Constants double := {|
  MARS_RADIUS := lit 3386000;
  GRAVITY := lit 0.00000000006673;
  MARS_MASS := lit 642 * lit 1000000000 * lit 1000000000000;
  EXOSPHERE := lit 200000;
  UNLOADED_LANDER_MASS := lit 100;
  FUEL_CAPACITY := lit 100;
  FUEL_DENSITY := lit 1;
  DRAG_COEF_LANDER := lit 1;
  DRAG_COEF_CHUTE := lit 2;
  LANDER_SIZE := lit 1
|}.

Definition zero3 : vector3d double := Vector3d (lit 0) (lit 0) (lit 0).

(** Collaborators: an atmosphere of constant density [rho], an engine that
    gives no thrust, a safety check that answers [safe], and a
    stabilization that leaves the orientation as it is. *)
Definition collaborators (rho : double) (safe : bool) : Environment double := {|
  atmospheric_density := fun _ => rho;
  thrust_wrt_world := fun _ => zero3;
  safe_to_deploy_parachute := fun _ => safe;
  attitude_stabilization_orientation := fun s => orientation s
|}.

Definition vacuum : Environment double := collaborators (lit 0) true.
Definition thin_air (safe : bool) : Environment double :=
  collaborators (lit 0.01) safe.

(** The state [initialize_simulation] builds for scenario [n], from a full
    tank and everything else cleared. *)
Definition blank (n : Z) : State double :=
  mkState zero3 zero3 zero3 (lit 1) (lit 0) (lit 0) NOT_DEPLOYED false false
    n [].

Definition start (n : Z) : State double := initialize_simulation mars (blank n).

(** Scenario 1 (at rest, 10 km up) with the parachute already lost. *)
Definition lost_at_10km : State double := set_parachute_status LOST (start 1).

(** Scenario 5 (200 km up) climbing at 50 m/s: the position points along
    -y, so the radial velocity is -50. *)
Definition at_200km : State double :=
  set_velocity (Vector3d (lit 0) (lit 50) (lit 0)) (start 5).

(** 1 km up on the same axis, climbing at 5 m/s (radial velocity -5). *)
Definition at_1km : State double :=
  set_velocity (Vector3d (lit 0) (lit 5) (lit 0))
    (set_position (Vector3d (lit 0) (- (MARS_RADIUS mars + lit 1000)) (lit 0))
       (start 5)).

(** On the surface (altitude 0) on the x axis, with radial velocity [v]. *)
Definition on_surface (v : double) : State double :=
  set_velocity (Vector3d v (lit 0) (lit 0))
    (set_position (Vector3d (MARS_RADIUS mars) (lit 0) (lit 0)) (start 0)).

End Samples.

(** In binary64: a vector with a NaN component, and the vector whose
    components are all NaN. *)
Definition has_nan (v : vector3d PrimFloat.float) : Prop :=
  vx v = PrimFloat.nan \/ vy v = PrimFloat.nan \/ vz v = PrimFloat.nan.

Definition all_nan : vector3d PrimFloat.float :=
  Vector3d PrimFloat.nan PrimFloat.nan PrimFloat.nan.

(** In binary64: a double that is a zero (of either sign) or NaN, and one
    that is an infinity (of either sign) or NaN. *)
Definition zero_or_nan (x : PrimFloat.float) : Prop :=
  match FloatOps.Prim2SF x with
  | SpecFloat.S754_zero _ | SpecFloat.S754_nan => True
  | _ => False
  end.

Definition infinite_or_nan (x : PrimFloat.float) : Prop :=
  match FloatOps.Prim2SF x with
  | SpecFloat.S754_infinity _ | SpecFloat.S754_nan => True
  | _ => False
  end.

(* ================================================================== *)
(** ** The two functions over any normalisation *)

(** [vector3d::norm] is declared in [lander.h], which is not among the
    sources.  Here the two functions are written once more with the
    normalisation as a parameter [N]: every call of [norm()] in
    [lander.cpp] (lines 22, 53 and 54) becomes a call of [N], and nothing
    else changes.  With [N := norm] they are [autopilot] and
    [numerical_dynamics] above. *)
Section AnyNormalisation.

Context {double : Type} {D : DoubleOps double}.
Local Open Scope dbl_scope.

Variable N : vector3d double -> vector3d double.
Variable K : Constants double.
Variable E : Environment double.

(** Lines 61, 62 and 64, as functions of the normalised vector they use. *)
Definition gravity_of (s : State double) (n : vector3d double)
    : vector3d double :=
  (- GRAVITY K * MARS_MASS K) *^ n ^/ (modulusr s * modulusr s).

Definition drag_lander_of (s : State double) (n : vector3d double)
    : vector3d double :=
  (lit 0.5 * atmospheric_density E (position s) * DRAG_COEF_LANDER K
   * lit 3.141592654 * LANDER_SIZE K * LANDER_SIZE K
   * modulusv s * modulusv s) *^ n ^/ mass K s.

Definition drag_chute_of (s : State double) (n : vector3d double)
    : vector3d double :=
  (lit 0.5 * atmospheric_density E (position s) * DRAG_COEF_CHUTE K
   * lit 20 * LANDER_SIZE K * LANDER_SIZE K
   * modulusv s * modulusv s) *^ n ^/ mass K s.

(** Lines 18-44. *)
Definition autopilot_with (s0 : State double) : State double :=
  let descent_rate := velocity s0 ^*^ N (position s0) in
  let altitude := abs (position s0) - MARS_RADIUS K in
  let Pout_const := Kp_const * (- (lit 0.5 + Kh_const * altitude + descent_rate)) in
  let s := set_stabilized_attitude true s0 in
  let s :=
    if Pout_const <=? - Offset then set_throttle (lit 0) s
    else if Pout_const <? lit 1 - Offset then
      set_throttle (Offset + Pout_const) s
    else set_throttle (lit 1) s in
  if (altitude <=? lit 150000) && safe_to_deploy_parachute E s
  then set_parachute_status DEPLOYED s
  else s.

(** Lines 48-84: [normalr] and [normalv] are computed on entry, with no
    test of [modulusr] or [modulusv], and used in both branches. *)
Definition numerical_dynamics_with (s : State double) : State double :=
  let normalr := N (position s) in
  let normalv := N (velocity s) in
  let gravity_acceleration := gravity_of s normalr in
  let drag_lander_acceleration := drag_lander_of s normalv in
  let thrust_acceleration := thrust_acceleration K E s in
  let drag_chute_acceleration := drag_chute_of s normalv in
  let s1 :=
    if parachute_status_eqb (parachute_status s) DEPLOYED then
      let acceleration :=
        gravity_acceleration ^-^ drag_lander_acceleration
        ^-^ drag_chute_acceleration ^+^ thrust_acceleration in
      let s' := set_position (position s ^+^ delta_t s *^ velocity s) s in
      set_velocity (velocity s' ^+^ delta_t s' *^ acceleration) s'
    else
      let acceleration :=
        gravity_acceleration ^-^ drag_lander_acceleration
        ^+^ thrust_acceleration in
      let s' := set_position (position s ^+^ delta_t s *^ velocity s) s in
      set_velocity (velocity s' ^+^ delta_t s' *^ acceleration) s' in
  let s2 := if autopilot_enabled s1 then autopilot_with s1 else s1 in
  if stabilized_attitude s2 then attitude_stabilization E s2 else s2.

End AnyNormalisation.

(* ================================================================== *)
(** ** The analytic free-fall step, and a state that overflows *)

Section FreeFall.

Context {double : Type} {D : DoubleOps double}.
Local Open Scope dbl_scope.

(** The velocity section 8 of the spec gives for one step in free fall,
    v' = v + delta_t (-G M / r^2) r^, computed in the arithmetic of
    [double]. *)
Definition analytic_free_fall_velocity (K : Constants double)
    (s : State double) : vector3d double :=
  velocity s
  ^+^ delta_t s
      *^ ((- (GRAVITY K * MARS_MASS K)
           / (abs (position s) * abs (position s))) *^ norm (position s)).

Definition squared (x : double) : double := x * x.

(** Scenario 0 with a velocity of 2^992 m/s along x (2^62 squared four
    times): a double whose square is not one. *)
Definition too_fast : State double :=
  set_velocity
    (Vector3d
       (squared (squared (squared (squared (lit 4611686018427387904)))))
       (lit 0) (lit 0))
    (start 0).

End FreeFall.

Unset Implicit Arguments.

(* ================================================================== *)
(** ** Control flow: what the two functions write *)

Section Control.

Context {double : Type} {D : DoubleOps double}.
Local Open Scope dbl_scope.

Variable K : Constants double.

(** [autopilot] is the state of line 40 with the parachute deployed when
    the test of line 40 passes. *)
Lemma autopilot_unfold (E : Environment double) (s : State double) :
  autopilot K E s =
    if deploy_condition K E s
    then set_parachute_status DEPLOYED (before_deploy_test K s)
    else before_deploy_test K s.
Proof.
  unfold autopilot, deploy_condition, before_deploy_test, throttle_command.
  fold (Pout_const K s).
  destruct (Pout_const K s <=? - Offset);
    [ | destruct (Pout_const K s <? lit 1 - Offset) ]; reflexivity.
Qed.

Lemma autopilot_throttle (E : Environment double) (s : State double) :
  throttle (autopilot K E s) = throttle_command K s.
Proof.
  rewrite autopilot_unfold; destruct (deploy_condition K E s); reflexivity.
Qed.

Lemma autopilot_parachute_status (E : Environment double) (s : State double) :
  parachute_status (autopilot K E s) =
    if deploy_condition K E s then DEPLOYED else parachute_status s.
Proof.
  rewrite autopilot_unfold; destruct (deploy_condition K E s); reflexivity.
Qed.

(** [autopilot] writes [throttle], [stabilized_attitude] and
    [parachute_status], and nothing else. *)
Lemma autopilot_frame (E : Environment double) (s : State double) :
  position (autopilot K E s) = position s /\
  velocity (autopilot K E s) = velocity s /\
  orientation (autopilot K E s) = orientation s /\
  fuel (autopilot K E s) = fuel s /\
  delta_t (autopilot K E s) = delta_t s /\
  autopilot_enabled (autopilot K E s) = autopilot_enabled s /\
  stabilized_attitude (autopilot K E s) = true.
Proof.
  rewrite autopilot_unfold; destruct (deploy_condition K E s);
    repeat split; reflexivity.
Qed.

(** Lines 66-77 are the same two assignments in both branches. *)
Lemma numerical_dynamics_unfold (E : Environment double) (s : State double) :
  numerical_dynamics K E s =
    let s1 := euler_step K E s in
    let s2 := if autopilot_enabled s1 then autopilot K E s1 else s1 in
    if stabilized_attitude s2 then attitude_stabilization E s2 else s2.
Proof.
  unfold numerical_dynamics, euler_step, acceleration.
  destruct (parachute_status_eqb (parachute_status s) DEPLOYED); reflexivity.
Qed.

Lemma numerical_dynamics_position (E : Environment double) (s : State double) :
  position (numerical_dynamics K E s) = position s ^+^ delta_t s *^ velocity s.
Proof.
  rewrite numerical_dynamics_unfold; cbv zeta.
  destruct (autopilot_enabled (euler_step K E s)).
  - destruct (autopilot_frame E (euler_step K E s)) as (Hp & _ & _ & _ & _ & _ & Hs).
    rewrite Hs. simpl. exact Hp.
  - destruct (stabilized_attitude (euler_step K E s)); reflexivity.
Qed.

Lemma numerical_dynamics_velocity (E : Environment double) (s : State double) :
  velocity (numerical_dynamics K E s) =
    velocity s ^+^ delta_t s *^ acceleration K E s.
Proof.
  rewrite numerical_dynamics_unfold; cbv zeta.
  destruct (autopilot_enabled (euler_step K E s)).
  - destruct (autopilot_frame E (euler_step K E s)) as (_ & Hv & _ & _ & _ & _ & Hs).
    rewrite Hs. simpl. exact Hv.
  - destruct (stabilized_attitude (euler_step K E s)); reflexivity.
Qed.

Lemma numerical_dynamics_fuel (E : Environment double) (s : State double) :
  fuel (numerical_dynamics K E s) = fuel s.
Proof.
  rewrite numerical_dynamics_unfold; cbv zeta.
  destruct (autopilot_enabled (euler_step K E s)).
  - destruct (autopilot_frame E (euler_step K E s)) as (_ & _ & _ & Hf & _ & _ & Hs).
    rewrite Hs. simpl. exact Hf.
  - destruct (stabilized_attitude (euler_step K E s)); reflexivity.
Qed.

Lemma numerical_dynamics_parachute_status (E : Environment double)
    (s : State double) :
  parachute_status (numerical_dynamics K E s) =
    if autopilot_enabled s && deploy_condition K E (euler_step K E s)
    then DEPLOYED else parachute_status s.
Proof.
  rewrite numerical_dynamics_unfold; cbv zeta.
  change (autopilot_enabled (euler_step K E s)) with (autopilot_enabled s).
  destruct (autopilot_enabled s); simpl.
  - destruct (autopilot_frame E (euler_step K E s)) as (_ & _ & _ & _ & _ & _ & Hs).
    rewrite Hs. simpl. rewrite autopilot_parachute_status. reflexivity.
  - destruct (stabilized_attitude s); reflexivity.
Qed.

Lemma autopilot_keeps_deployed (E : Environment double) (s : State double) :
  parachute_status s = DEPLOYED ->
  parachute_status (autopilot K E s) = DEPLOYED.
Proof.
  intros H. rewrite autopilot_parachute_status.
  destruct (deploy_condition K E s); [reflexivity | exact H].
Qed.

Lemma numerical_dynamics_keeps_deployed (E : Environment double)
    (s : State double) :
  parachute_status s = DEPLOYED ->
  parachute_status (numerical_dynamics K E s) = DEPLOYED.
Proof.
  intros H. rewrite numerical_dynamics_parachute_status.
  destruct (autopilot_enabled s && deploy_condition K E (euler_step K E s));
    [reflexivity | exact H].
Qed.

Lemma run_autopilot_keeps_deployed (Es : list (Environment double)) :
  forall s : State double,
    parachute_status s = DEPLOYED ->
    parachute_status (run_autopilot K Es s) = DEPLOYED.
Proof.
  induction Es as [| E Es IH]; intros s H; simpl.
  - exact H.
  - apply IH, autopilot_keeps_deployed, H.
Qed.

Lemma run_ticks_keeps_deployed (Es : list (Environment double)) :
  forall s : State double,
    parachute_status s = DEPLOYED ->
    parachute_status (run_ticks K Es s) = DEPLOYED.
Proof.
  induction Es as [| E Es IH]; intros s H; simpl.
  - exact H.
  - apply IH, numerical_dynamics_keeps_deployed, H.
Qed.


(** ** The parachute *)

Lemma initialize_simulation_not_deployed (s : State double) :
  (0 <= scenario s <= 6)%Z ->
  parachute_status (initialize_simulation K s) = NOT_DEPLOYED.
Proof.
  intros [Hlo Hhi]. unfold initialize_simulation; cbv zeta.
  change (scenario (set_scenario_description scenario_descriptions s))
    with (scenario s).
  destruct (scenario s) as [| p | p];
    [ | do 3 (try destruct p as [p | p | ]) | ];
    try reflexivity; exfalso;
    first [ apply Hhi; reflexivity
          | apply Hhi; destruct p; reflexivity
          | apply Hlo; reflexivity ].
Qed.

(** No state the three functions produce has a LOST parachute: LOST is
    never written in [lander.cpp]. *)
Lemma reachable_not_lost (s : State double) :
  reachable K s -> parachute_status s <> LOST.
Proof.
  induction 1 as [s Hn | E s _ IH | E s _ IH].
  - rewrite (initialize_simulation_not_deployed s Hn). discriminate.
  - rewrite numerical_dynamics_parachute_status.
    destruct (autopilot_enabled s && deploy_condition K E (euler_step K E s));
      [discriminate | exact IH].
  - rewrite autopilot_parachute_status.
    destruct (deploy_condition K E s); [discriminate | exact IH].
Qed.

Lemma autopilot_rank (E : Environment double) (s : State double) :
  parachute_status s <> LOST ->
  (status_rank (parachute_status s)
   <= status_rank (parachute_status (autopilot K E s)))%nat.
Proof.
  intros Hlost. rewrite autopilot_parachute_status.
  destruct (deploy_condition K E s); [ | auto].
  destruct (parachute_status s); simpl; auto.
  now elim Hlost.
Qed.

(** C5, as amended: the autopilot leaves [parachute_status] as it is or
    sets it to DEPLOYED; it changes it only when the altitude is at most
    150000 and the safety check answers true (the current status is not
    among the conditions); a status that is not LOST never moves
    backward in the order NOT_DEPLOYED, DEPLOYED, LOST, and no state the
    functions of [lander.cpp] reach from a scenario has a LOST status. *)
Theorem autopilot_parachute_transition (E : Environment double)
    (s : State double) :
  (parachute_status (autopilot K E s) = parachute_status s \/
   parachute_status (autopilot K E s) = DEPLOYED) /\
  (parachute_status (autopilot K E s) <> parachute_status s ->
   (altitude K s <=? lit 150000) = true /\
   safe_to_deploy_parachute E (before_deploy_test K s) = true) /\
  (parachute_status s <> LOST ->
   (status_rank (parachute_status s)
    <= status_rank (parachute_status (autopilot K E s)))%nat) /\
  (reachable K s ->
   parachute_status s <> LOST /\
   (status_rank (parachute_status s)
    <= status_rank (parachute_status (autopilot K E s)))%nat).
Proof.
  split; [ | split; [ | split ] ].
  - rewrite autopilot_parachute_status.
    destruct (deploy_condition K E s); [now right | now left].
  - rewrite autopilot_parachute_status. unfold deploy_condition.
    destruct (altitude K s <=? lit 150000); simpl;
      [ destruct (safe_to_deploy_parachute E (before_deploy_test K s)) | ];
      [ now split | intros H; now elim H | intros H; now elim H ].
  - apply autopilot_rank.
  - intros Hr. pose proof (reachable_not_lost s Hr) as Hlost.
    split; [exact Hlost | apply autopilot_rank, Hlost].
Qed.

(** C6: once the parachute is DEPLOYED no call of the autopilot reverts
    it; when the test of line 40 passes the status is DEPLOYED after the
    call, and it is still DEPLOYED after any further calls of the autopilot
    or ticks of the integrator, whatever the safety check answers then. *)
Theorem deployed_parachute_is_never_retracted :
  (forall (E : Environment double) (s : State double),
     parachute_status s = DEPLOYED ->
     parachute_status (autopilot K E s) = DEPLOYED) /\
  (forall (E : Environment double) (s : State double)
          (Es : list (Environment double)),
     deploy_condition K E s = true ->
     parachute_status (autopilot K E s) = DEPLOYED /\
     parachute_status (run_autopilot K Es (autopilot K E s)) = DEPLOYED /\
     parachute_status (run_ticks K Es (autopilot K E s)) = DEPLOYED) /\
  (forall (E : Environment double) (s : State double)
          (Es : list (Environment double)),
     autopilot_enabled s = true ->
     deploy_condition K E (euler_step K E s) = true ->
     parachute_status (numerical_dynamics K E s) = DEPLOYED /\
     parachute_status (run_ticks K Es (numerical_dynamics K E s)) = DEPLOYED).
Proof.
  split; [exact autopilot_keeps_deployed | split].
  - intros E s Es Hc.
    assert (Hd : parachute_status (autopilot K E s) = DEPLOYED)
      by (rewrite autopilot_parachute_status, Hc; reflexivity).
    auto using run_autopilot_keeps_deployed, run_ticks_keeps_deployed.
  - intros E s Es Ha Hc.
    assert (Hd : parachute_status (numerical_dynamics K E s) = DEPLOYED)
      by (rewrite numerical_dynamics_parachute_status, Ha, Hc; reflexivity).
    auto using run_ticks_keeps_deployed.
Qed.

(** ** What a tick leaves alone *)

(** C9: a tick never changes [fuel]; with [autopilot_enabled] and
    [stabilized_attitude] both false it is the Euler step alone, which
    writes [position] and [velocity] and leaves every other variable. *)
Theorem numerical_dynamics_frame (E : Environment double) (s : State double) :
  fuel (numerical_dynamics K E s) = fuel s /\
  (autopilot_enabled s = false ->
   stabilized_attitude s = false ->
   numerical_dynamics K E s = euler_step K E s /\
   throttle (numerical_dynamics K E s) = throttle s /\
   parachute_status (numerical_dynamics K E s) = parachute_status s /\
   orientation (numerical_dynamics K E s) = orientation s /\
   fuel (numerical_dynamics K E s) = fuel s /\
   delta_t (numerical_dynamics K E s) = delta_t s /\
   stabilized_attitude (numerical_dynamics K E s) = false /\
   autopilot_enabled (numerical_dynamics K E s) = false /\
   scenario (numerical_dynamics K E s) = scenario s /\
   scenario_description (numerical_dynamics K E s) = scenario_description s).
Proof.
  split; [apply numerical_dynamics_fuel | ].
  intros Ha Hs.
  assert (Hn : numerical_dynamics K E s = euler_step K E s).
  { rewrite numerical_dynamics_unfold; cbv zeta.
    change (autopilot_enabled (euler_step K E s)) with (autopilot_enabled s).
    rewrite Ha.
    change (stabilized_attitude (euler_step K E s)) with (stabilized_attitude s).
    rewrite Hs. reflexivity. }
  rewrite Hn. simpl. auto 12.
Qed.

(** ** The throttle is a function of position and velocity *)

(** C10: the throttle the autopilot writes is determined by the position
    and the velocity it reads: two calls on states that agree on them,
    whatever else differs and whatever the collaborators answer, write
    the same throttle; so does a second call on the state the first left. *)
Theorem autopilot_throttle_is_a_function_of_the_pose
    (E E' : Environment double) (s s' : State double) :
  position s' = position s ->
  velocity s' = velocity s ->
  throttle (autopilot K E' s') = throttle (autopilot K E s).
Proof.
  intros Hp Hv. rewrite !autopilot_throttle.
  unfold throttle_command, Pout_const, altitude, descent_rate.
  rewrite Hp, Hv. reflexivity.
Qed.

(** ** Further properties of the control flow *)

(** The autopilot switches the attitude stabilization on (line 26), so a
    tick is one of three compositions: with the autopilot enabled, the
    Euler step, the autopilot and the stabilization; otherwise the Euler
    step, followed by the stabilization when it is on. *)
Theorem numerical_dynamics_cases (E : Environment double) (s : State double) :
  stabilized_attitude (autopilot K E s) = true /\
  numerical_dynamics K E s =
    if autopilot_enabled s
    then attitude_stabilization E (autopilot K E (euler_step K E s))
    else if stabilized_attitude s
         then attitude_stabilization E (euler_step K E s)
         else euler_step K E s.
Proof.
  split; [apply autopilot_frame | ].
  rewrite numerical_dynamics_unfold; cbv zeta.
  change (autopilot_enabled (euler_step K E s)) with (autopilot_enabled s).
  destruct (autopilot_enabled s).
  - destruct (autopilot_frame E (euler_step K E s))
      as (_ & _ & _ & _ & _ & _ & Hs).
    rewrite Hs. reflexivity.
  - reflexivity.
Qed.

(** The only status the two functions ever write is DEPLOYED: after any
    number of ticks the status is the one at the start or DEPLOYED. *)
Theorem run_ticks_only_writes_deployed (Es : list (Environment double))
    (s : State double) :
  parachute_status (run_ticks K Es s) = parachute_status s \/
  parachute_status (run_ticks K Es s) = DEPLOYED.
Proof.
  revert s. induction Es as [| E Es IH]; intros s; simpl.
  - now left.
  - destruct (IH (numerical_dynamics K E s)) as [H | H]; [ | now right].
    rewrite H, numerical_dynamics_parachute_status.
    destruct (autopilot_enabled s && deploy_condition K E (euler_step K E s));
      [now right | now left].
Qed.

(** The mass line 60 computes is the same before and after a tick: the
    integrator reads [fuel] and never writes it. *)
Theorem numerical_dynamics_keeps_mass (E : Environment double)
    (s : State double) :
  mass K (numerical_dynamics K E s) = mass K s.
Proof. unfold mass. rewrite numerical_dynamics_fuel. reflexivity. Qed.

(** [initialize_simulation] always writes the ten descriptions.  For the
    scenarios 0 to 6 it sets the time step to 0.1, the parachute to
    NOT_DEPLOYED and the autopilot off, switches the stabilization on
    exactly for the scenarios 1 and 5, which start at rest, and leaves
    [fuel] and [throttle]; for any other scenario number (7, 8 and 9
    among them) it changes nothing else. *)
Theorem initialize_simulation_presets (s : State double) :
  scenario_description (initialize_simulation K s) = scenario_descriptions /\
  scenario (initialize_simulation K s) = scenario s /\
  fuel (initialize_simulation K s) = fuel s /\
  throttle (initialize_simulation K s) = throttle s /\
  if ((0 <=? scenario s) && (scenario s <=? 6))%Z then
    delta_t (initialize_simulation K s) = lit 0.1 /\
    parachute_status (initialize_simulation K s) = NOT_DEPLOYED /\
    autopilot_enabled (initialize_simulation K s) = false /\
    stabilized_attitude (initialize_simulation K s)
    = ((scenario s =? 1) || (scenario s =? 5))%Z /\
    (if stabilized_attitude (initialize_simulation K s)
     then velocity (initialize_simulation K s)
          = Vector3d (lit 0) (lit 0) (lit 0)
     else True)
  else
    initialize_simulation K s
    = set_scenario_description scenario_descriptions s.
Proof.
  unfold initialize_simulation; cbv zeta.
  change (scenario (set_scenario_description scenario_descriptions s))
    with (scenario s).
  destruct (scenario s) as [| p | p] eqn:Hsc;
    [ | do 3 (try destruct p as [p | p | ]) | ];
    simpl; rewrite ?Hsc; repeat split.
Qed.

End Control.

(* ================================================================== *)
(** ** The arithmetic of the two functions, over the reals *)

(** A literal of the source with no fractional part is that integer. *)
Lemma Q2R_integer (z : Z) : Q2R (z # 1) = IZR z.
Proof. unfold Q2R; simpl. rewrite Rinv_1. apply Rmult_1_r. Qed.

(** Unfolds the operations of [R_double] to those of [R]. *)
Ltac to_R :=
  cbv [lit dadd dsub dmul ddiv dopp dsqrt dle dlt deq R_double] in *;
  rewrite ?Q2R_integer in *.

Section RealArithmetic.

Local Open Scope R_scope.

Variable K : Constants R.
Variable E : Environment R.

(** At [R_double] the operations of [vector3d] are the ones the spec's
    formulas are written with. *)
Lemma abs_magnitude (v : vector3d R) : abs v = Spec.magnitude v.
Proof. reflexivity. Qed.

Lemma norm_unit (v : vector3d R) : norm v = Spec.unit v.
Proof. reflexivity. Qed.

Lemma v3_dot_dot (u v : vector3d R) : u ^*^ v = Spec.dot u v.
Proof. reflexivity. Qed.

Lemma vector3d_eq (u v : vector3d R) :
  vx u = vx v -> vy u = vy v -> vz u = vz v -> u = v.
Proof. destruct u, v; simpl; intros -> -> ->; reflexivity. Qed.

Lemma Rle_bool_true (x y : R) : Rle_bool x y = true <-> x <= y.
Proof. unfold Rle_bool; destruct (Rle_dec x y); intuition discriminate. Qed.

Lemma Rlt_bool_true (x y : R) : Rlt_bool x y = true <-> x < y.
Proof. unfold Rlt_bool; destruct (Rlt_dec x y); intuition discriminate. Qed.

Lemma half_inv_2 : 0.5 = / 2.
Proof. lra. Qed.

(** Proves an equation between vectors of reals component by component;
    a division is a product by an inverse that [ring] takes as it is. *)
Ltac v3_ring :=
  apply vector3d_eq; simpl; to_R; unfold Rdiv; simpl pow;
  rewrite ?Rmult_1_r, ?half_inv_2; ring.

(** *** The autopilot's control law *)

Lemma Pout_const_P (s : State R) :
  Pout_const K s = Spec.P (Spec.altitude K s) (Spec.descent_rate s).
Proof. reflexivity. Qed.

Lemma throttle_command_map (s : State R) :
  throttle_command K s = Spec.throttle_map (Pout_const K s).
Proof.
  unfold throttle_command, Spec.throttle_map, Spec.Offset, Offset. to_R.
  unfold Rle_bool, Rlt_bool.
  destruct (Rle_dec (Pout_const K s) (- (0.5))); [reflexivity | ].
  destruct (Rlt_dec (Pout_const K s) (1 - 0.5)); [reflexivity | lra].
Qed.

Lemma throttle_map_clamp (p : R) :
  Spec.throttle_map p = Rmax 0 (Rmin 1 (Spec.Offset + p)).
Proof.
  unfold Spec.throttle_map, Spec.Offset.
  destruct (Rle_dec p (- (0.5))) as [H1 | H1];
    [ | destruct (Rlt_dec p (1 - 0.5)) as [H2 | H2] ].
  - rewrite Rmin_right by lra. rewrite Rmax_left by lra. reflexivity.
  - rewrite Rmin_right by lra. rewrite Rmax_right by lra. reflexivity.
  - rewrite Rmin_left by lra. rewrite Rmax_right by lra. reflexivity.
Qed.

(** The three regions of the map, as the spec words them. *)
Lemma throttle_map_regions (p : R) :
  (p <= - Spec.Offset -> Spec.throttle_map p = 0) /\
  (- Spec.Offset < p -> p < 1 - Spec.Offset ->
   Spec.throttle_map p = Spec.Offset + p) /\
  (1 - Spec.Offset <= p -> Spec.throttle_map p = 1).
Proof.
  unfold Spec.throttle_map, Spec.Offset.
  destruct (Rle_dec p (- (0.5))); [ | destruct (Rlt_dec p (1 - 0.5)) ];
    repeat split; intros; lra.
Qed.

(** C3: the autopilot computes the altitude, the descent rate and P by
    the formulas of section 4.2 (Kh = 0.02, Kp = 0.5, Offset = 0.5), and
    the throttle it writes is the three-region map of P: 0 if
    P <= -Offset, Offset + P if P < 1 - Offset, else 1; the map sends
    P = 0 to Offset. *)
Theorem autopilot_throttle_law (s : State R) :
  altitude K s = Spec.magnitude (position s) - MARS_RADIUS K /\
  descent_rate s = Spec.dot (velocity s) (Spec.unit (position s)) /\
  Pout_const K s = 0.5 * - (0.5 + 0.02 * altitude K s + descent_rate s) /\
  Pout_const K s = Spec.P (Spec.altitude K s) (Spec.descent_rate s) /\
  throttle (autopilot K E s) = Spec.throttle_map (Pout_const K s) /\
  throttle (autopilot K E s) =
    (if Rle_dec (Pout_const K s) (- (0.5)) then 0
     else if Rlt_dec (Pout_const K s) (1 - 0.5) then 0.5 + Pout_const K s
     else 1) /\
  Spec.throttle_map 0 = Spec.Offset.
Proof.
  assert (Ht : throttle (autopilot K E s)
               = Spec.throttle_map (Pout_const K s))
    by (rewrite autopilot_throttle; apply throttle_command_map).
  repeat split; try exact Ht.
  destruct (throttle_map_regions 0) as (_ & Hmid & _).
  rewrite Hmid; unfold Spec.Offset; lra.
Qed.

(** C4: the throttle the autopilot writes lies in [0, 1], for every
    state; it is Offset + P clamped to 0 below and to 1 above. *)
Theorem autopilot_throttle_in_unit_interval (s : State R) :
  0 <= throttle (autopilot K E s) <= 1 /\
  throttle (autopilot K E s) = Rmax 0 (Rmin 1 (Spec.Offset + Pout_const K s)).
Proof.
  rewrite autopilot_throttle, throttle_command_map.
  split; [ | apply throttle_map_clamp].
  unfold Spec.throttle_map, Spec.Offset.
  destruct (Rle_dec (Pout_const K s) (- (0.5))); [lra | ].
  destruct (Rlt_dec (Pout_const K s) (1 - 0.5)); lra.
Qed.

Lemma Pout_const_value (s : State R) (a d : R) :
  altitude K s = a ->
  descent_rate s = d ->
  Pout_const K s = 0.5 * - (0.5 + 0.02 * a + d).
Proof. intros <- <-. reflexivity. Qed.

(** C8, as amended: at an altitude of 200000 m and a descent rate of
    -50 m/s, P = 0.5 * (-(0.5 + 0.02 * 200000 - 50)) = -1975.25 and the
    throttle is set to 0. *)
Theorem autopilot_at_200km (s : State R) :
  altitude K s = 200000 ->
  descent_rate s = -50 ->
  Pout_const K s = 0.5 * - (0.5 + 0.02 * 200000 - 50) /\
  Pout_const K s = -1975.25 /\
  throttle (autopilot K E s) = 0.
Proof.
  intros Ha Hd.
  assert (HP : Pout_const K s = -1975.25).
  { rewrite (Pout_const_value s _ _ Ha Hd). lra. }
  repeat split; [lra | exact HP | ].
  rewrite autopilot_throttle, throttle_command_map, HP.
  unfold Spec.throttle_map, Spec.Offset.
  destruct (Rle_dec (-1975.25) (- (0.5))); lra.
Qed.

(** Over the reals the altitude test of line 40 is [altitude <= 150000]. *)
Lemma deploy_altitude_test (s : State R) :
  (altitude K s <=? lit 150000)%dbl = true <-> altitude K s <= 150000.
Proof. to_R. apply Rle_bool_true. Qed.

(** The other scenario of section 8: at an altitude of 1000 m and a
    descent rate of -5 m/s, P = 0.5 * (-(0.5 + 20 - 5)) = -7.75 and the
    throttle is set to 0. *)
Theorem autopilot_at_1km (s : State R) :
  altitude K s = 1000 ->
  descent_rate s = -5 ->
  Pout_const K s = 0.5 * - (0.5 + 20 - 5) /\
  Pout_const K s = -7.75 /\
  throttle (autopilot K E s) = 0.
Proof.
  intros Ha Hd.
  assert (HP : Pout_const K s = -7.75).
  { rewrite (Pout_const_value s _ _ Ha Hd). lra. }
  repeat split; [lra | exact HP | ].
  rewrite autopilot_throttle, throttle_command_map, HP.
  destruct (throttle_map_regions (-7.75)) as (Hlow & _).
  apply Hlow. unfold Spec.Offset. lra.
Qed.

(** *** The integrator's acceleration *)

Lemma mass_total_mass (s : State R) : mass K s = Spec.total_mass K s.
Proof. unfold mass, Spec.total_mass. to_R. ring. Qed.

Lemma gravity_acceleration_gravity (s : State R) :
  gravity_acceleration K s = Spec.gravity K s.
Proof.
  unfold gravity_acceleration, Spec.gravity, normalr, modulusr.
  rewrite norm_unit, abs_magnitude. v3_ring.
Qed.

Lemma drag_lander_acceleration_drag (s : State R) :
  drag_lander_acceleration K E s = Spec.lander_drag K E s.
Proof.
  unfold drag_lander_acceleration, Spec.lander_drag, Spec.drag,
    Spec.lander_area_factor, normalv, modulusv.
  rewrite norm_unit, abs_magnitude, mass_total_mass. v3_ring.
Qed.

Lemma drag_chute_acceleration_drag (s : State R) :
  drag_chute_acceleration K E s = Spec.chute_drag K E s.
Proof.
  unfold drag_chute_acceleration, Spec.chute_drag, Spec.drag,
    Spec.chute_area_factor, normalv, modulusv.
  rewrite norm_unit, abs_magnitude, mass_total_mass. v3_ring.
Qed.

Lemma thrust_acceleration_thrust (s : State R) :
  thrust_acceleration K E s = Spec.thrust K E s.
Proof.
  unfold thrust_acceleration, Spec.thrust. rewrite mass_total_mass. reflexivity.
Qed.

Lemma acceleration_net (s : State R) :
  acceleration K E s = Spec.net_acceleration K E s.
Proof.
  unfold acceleration, Spec.net_acceleration.
  rewrite gravity_acceleration_gravity, drag_lander_acceleration_drag,
    drag_chute_acceleration_drag, thrust_acceleration_thrust.
  destruct (parachute_status s); reflexivity.
Qed.

(** C2: the acceleration the integrator uses is gravity minus the lander
    drag, minus the chute drag exactly when the parachute is DEPLOYED,
    plus the thrust, each term as section 4.1 gives it; the chute's area
    factor, 20, is larger than the lander's, 3.141592654. *)
Theorem numerical_dynamics_net_acceleration (s : State R) :
  velocity (numerical_dynamics K E s) =
    velocity s ^+^ delta_t s *^ Spec.net_acceleration K E s /\
  acceleration K E s = Spec.net_acceleration K E s /\
  mass K s = Spec.total_mass K s /\
  gravity_acceleration K s = Spec.gravity K s /\
  drag_lander_acceleration K E s = Spec.lander_drag K E s /\
  drag_chute_acceleration K E s = Spec.chute_drag K E s /\
  thrust_acceleration K E s = Spec.thrust K E s /\
  Spec.lander_area_factor < Spec.chute_area_factor.
Proof.
  rewrite numerical_dynamics_velocity, acceleration_net.
  repeat split;
    auto using mass_total_mass, gravity_acceleration_gravity,
      drag_lander_acceleration_drag, drag_chute_acceleration_drag,
      thrust_acceleration_thrust.
  unfold Spec.lander_area_factor, Spec.chute_area_factor. lra.
Qed.

(** With no air and no thrust the net acceleration is gravity alone. *)
Lemma free_fall_net_acceleration (s : State R) :
  atmospheric_density E (position s) = 0 ->
  thrust_wrt_world E s = Vector3d 0 0 0 ->
  Spec.net_acceleration K E s = Spec.free_fall_acceleration K s.
Proof.
  intros Hrho Hthrust.
  unfold Spec.net_acceleration, Spec.free_fall_acceleration, Spec.gravity,
    Spec.lander_drag, Spec.chute_drag, Spec.drag, Spec.thrust.
  rewrite Hrho, Hthrust.
  destruct (parachute_status s); v3_ring.
Qed.

End RealArithmetic.

(** C1, as amended: one call of the integrator is one forward Euler
    step, in every arithmetic: the new position is the old one plus
    delta_t times the old velocity, the new velocity is the old one plus
    delta_t times the acceleration computed from the old state.  In free
    fall (no air, no thrust, parachute not deployed) at a position and a
    velocity of nonzero magnitude the step is, over the reals,
    x' = x + delta_t v and v' = v + delta_t (-G M / r^2) r^. *)
Theorem numerical_dynamics_is_one_euler_step :
  (forall (double : Type) (D : DoubleOps double) (K : Constants double)
          (E : Environment double) (s : State double),
     position (numerical_dynamics K E s) =
       position s ^+^ delta_t s *^ velocity s /\
     velocity (numerical_dynamics K E s) =
       velocity s ^+^ delta_t s *^ acceleration K E s) /\
  (forall (K : Constants R) (E : Environment R) (s : State R),
     atmospheric_density E (position s) = 0%R ->
     thrust_wrt_world E s = Vector3d 0%R 0%R 0%R ->
     parachute_status s <> DEPLOYED ->
     (0 < abs (position s))%R ->
     (0 < abs (velocity s))%R ->
     position (numerical_dynamics K E s) =
       position s ^+^ delta_t s *^ velocity s /\
     velocity (numerical_dynamics K E s) =
       velocity s ^+^ delta_t s *^ Spec.free_fall_acceleration K s /\
     velocity (numerical_dynamics K E s) = analytic_free_fall_velocity K s).
Proof.
  split.
  - intros double D K E s.
    split; [apply numerical_dynamics_position | apply numerical_dynamics_velocity].
  - intros K E s Hrho Hthrust _ Hr Hv.
    split; [apply numerical_dynamics_position | ].
    assert (Hfree : velocity (numerical_dynamics K E s) =
              velocity s ^+^ delta_t s *^ Spec.free_fall_acceleration K s).
    { rewrite numerical_dynamics_velocity, acceleration_net.
      rewrite free_fall_net_acceleration by assumption. reflexivity. }
    split; [exact Hfree | ].
    rewrite Hfree. unfold analytic_free_fall_velocity,
      Spec.free_fall_acceleration.
    rewrite <- abs_magnitude, <- norm_unit.
    apply vector3d_eq; simpl; to_R; field;
      repeat split; apply Rgt_not_eq, Hr.
Qed.

(* ================================================================== *)
(** ** The code on concrete states, in binary64 *)

Section Binary64.

Local Abbreviation float := PrimFloat.float.
Local Open Scope dbl_scope.

Let K : Constants float := mars.
Let at_rest : State float := start 1.
Let in_orbit : State float := start 0.
Let lost : State float := lost_at_10km.
Let speeding : State float := too_fast.

(** The decimal literals of the source, read by [float_lit], are the
    doubles nearest to them: 0.02 is 5764607523034235 / 2^58, 0.1 is
    3602879701896397 / 2^55, 3.141592654 is 442139859559509 / 2^47. *)
Example float_lit_values :
  float_lit 0.02
  = PrimFloat.div (float_of_Z 5764607523034235) (float_of_Z (2 ^ 58)) /\
  float_lit 0.1
  = PrimFloat.div (float_of_Z 3602879701896397) (float_of_Z (2 ^ 55)) /\
  float_lit 3.141592654
  = PrimFloat.div (float_of_Z 442139859559509) (float_of_Z (2 ^ 47)) /\
  float_lit 0.5 = PrimFloat.div (float_of_Z 1) (float_of_Z 2) /\
  float_lit 150000 = float_of_Z 150000.
Proof. vm_compute. repeat split. Qed.

(** C1 as stated fails in the arithmetic the program runs with.  There
    is no air, no thrust and the parachute is stowed.  At 2^992 m/s
    [modulusv] is infinite and [normalv] is zero, and line 62 multiplies a
    zero by an infinity, whatever [norm] does at zero magnitude; at rest
    (scenario 1), with [norm] the unguarded division the spec describes,
    [normalv] is 0/0.  In both states every component of the new velocity
    is NaN, and the analytic step is a vector of numbers: the velocity
    itself at 2^992 m/s, a velocity along +y (towards the planet) at
    rest. *)
Lemma free_fall_step_is_not_analytic :
  (atmospheric_density vacuum (position speeding) = lit 0 /\
   thrust_wrt_world vacuum speeding = Vector3d (lit 0) (lit 0) (lit 0) /\
   parachute_status speeding = NOT_DEPLOYED /\
   velocity (numerical_dynamics K vacuum speeding) = all_nan /\
   analytic_free_fall_velocity K speeding = velocity speeding /\
   velocity (numerical_dynamics K vacuum speeding)
   <> analytic_free_fall_velocity K speeding) /\
  (atmospheric_density vacuum (position at_rest) = lit 0 /\
   thrust_wrt_world vacuum at_rest = Vector3d (lit 0) (lit 0) (lit 0) /\
   parachute_status at_rest = NOT_DEPLOYED /\
   velocity (numerical_dynamics K vacuum at_rest) = all_nan /\
   (lit 0 <? vy (analytic_free_fall_velocity K at_rest)) = true /\
   velocity (numerical_dynamics K vacuum at_rest)
   <> analytic_free_fall_velocity K at_rest).
Proof.
  split.
  - do 5 (split; [vm_compute; reflexivity | ]).
    intros H. apply (f_equal (fun v => PrimFloat.is_nan (vx v))) in H.
    vm_compute in H. discriminate.
  - do 5 (split; [vm_compute; reflexivity | ]).
    intros H. apply (f_equal (fun v => PrimFloat.is_nan (vx v))) in H.
    vm_compute in H. discriminate.
Qed.

(** C5, a use of the theorem: at rest 10 km up with the parachute not
    deployed and a safety check that answers true, the status changes. *)
Lemma autopilot_parachute_transition_witness :
  (altitude K at_rest <=? lit 150000) = true /\
  safe_to_deploy_parachute (thin_air true) (before_deploy_test K at_rest)
  = true /\
  (status_rank (parachute_status at_rest)
   <= status_rank (parachute_status (autopilot K (thin_air true) at_rest)))%nat /\
  parachute_status at_rest <> LOST.
Proof.
  destruct (autopilot_parachute_transition K (thin_air true) at_rest)
    as (_ & Hchange & Hrank & Hreach).
  assert (Hstart : reachable K at_rest)
    by (apply (reachable_start K (blank 1)); split; discriminate).
  split; [apply Hchange | split; [apply Hchange | split; [apply Hrank | ]]];
    [vm_compute; discriminate .. | apply (Hreach Hstart)].
Defined.

(** C5 as stated fails: on a state whose parachute is LOST, 10 km up,
    with a safety check that answers true, the autopilot sets the status
    back to DEPLOYED. *)
Lemma lost_parachute_is_deployed_again :
  parachute_status lost = LOST /\
  (altitude K lost <=? lit 150000) = true /\
  parachute_status (autopilot K (thin_air true) lost) = DEPLOYED /\
  (status_rank (parachute_status (autopilot K (thin_air true) lost))
   < status_rank (parachute_status lost))%nat.
Proof. vm_compute. repeat split. constructor. Qed.

(** C6, a use of the theorem: the parachute deploys at rest 10 km up;
    two further calls whose safety check answers false leave it so. *)
Lemma deployed_parachute_is_never_retracted_witness :
  deploy_condition K (thin_air true) at_rest = true /\
  parachute_status
    (run_autopilot K [thin_air false; thin_air false]
       (autopilot K (thin_air true) at_rest)) = DEPLOYED /\
  parachute_status
    (run_ticks K [thin_air false; thin_air false]
       (autopilot K (thin_air true) at_rest)) = DEPLOYED.
Proof.
  assert (Hc : deploy_condition K (thin_air true) at_rest = true)
    by (vm_compute; reflexivity).
  destruct (deployed_parachute_is_never_retracted K) as (_ & Hrun & _).
  destruct (Hrun (thin_air true) at_rest [thin_air false; thin_air false] Hc)
    as (_ & Ha & Ht).
  exact (conj Hc (conj Ha Ht)).
Defined.

(** C7 as stated fails: scenario 1 starts at rest, so the velocity fed to
    [norm] has magnitude zero; the guarded tick ends in an error, the
    tick of [lander.cpp] completes. *)
Lemma tick_at_rest_completes :
  abs (velocity at_rest) = lit 0 /\
  guarded_tick K (thin_air true) at_rest = ArithmeticDomainError zero_velocity /\
  tick K (thin_air true) at_rest
  = Done (numerical_dynamics K (thin_air true) at_rest) /\
  tick K (thin_air true) at_rest <> guarded_tick K (thin_air true) at_rest.
Proof.
  split; [vm_compute; reflexivity | ].
  split; [vm_compute; reflexivity | ].
  split; [reflexivity | ].
  vm_compute. discriminate.
Qed.

(** What the completed tick holds then: with [norm] the unguarded
    division the spec describes, 0/0 is NaN, and the new velocity is NaN
    in every component; the position is the old one. *)
Example tick_at_rest_velocity :
  velocity (numerical_dynamics K (thin_air true) at_rest)
  = Vector3d PrimFloat.nan PrimFloat.nan PrimFloat.nan /\
  position (numerical_dynamics K (thin_air true) at_rest) = position at_rest.
Proof. vm_compute. split; reflexivity. Qed.

(** C9, a use of the theorem: scenario 0 has both flags false. *)
Lemma numerical_dynamics_frame_witness :
  numerical_dynamics K (thin_air true) in_orbit
  = euler_step K (thin_air true) in_orbit /\
  throttle (numerical_dynamics K (thin_air true) in_orbit) = throttle in_orbit /\
  fuel (numerical_dynamics K (thin_air true) in_orbit) = fuel in_orbit.
Proof.
  destruct (numerical_dynamics_frame K (thin_air true) in_orbit) as (_ & H).
  destruct H as (He & Ht & _ & _ & Hf & _); [reflexivity | reflexivity | ].
  exact (conj He (conj Ht Hf)).
Defined.

(** C10, a use of the theorem: a second call, on the state the first one
    left and with another answer of the safety check, writes the same
    throttle. *)
Lemma autopilot_throttle_is_a_function_of_the_pose_witness :
  throttle
    (autopilot K (thin_air false) (autopilot K (thin_air true) in_orbit))
  = throttle (autopilot K (thin_air true) in_orbit).
Proof.
  apply autopilot_throttle_is_a_function_of_the_pose; reflexivity.
Defined.

(** C8, in binary64: 200 km up with a radial velocity of -50 the code
    computes P = -1975.25 exactly (-7901 / 4) and sets the throttle to 0. *)
Example binary64_at_200km :
  altitude K at_200km = lit 200000 /\
  descent_rate (at_200km : State float) = lit (-50) /\
  Pout_const K at_200km = lit (-1975.25) /\
  throttle (autopilot K (thin_air true) at_200km) = lit 0.
Proof. vm_compute. repeat split. Qed.

(** The three regions in binary64, on the surface: falling at 100 m/s
    gives P = 49.75 and full throttle; falling at 1 m/s gives P = 0.25
    and throttle 0.75; at a radial velocity of -0.5 m/s, P is zero (the
    double -0, which [==] does not tell from 0) and the throttle is
    Offset. *)
Example binary64_throttle_regions :
  Pout_const K (on_surface (lit (-100))) = lit 49.75 /\
  throttle (autopilot K (thin_air true) (on_surface (lit (-100)))) = lit 1 /\
  Pout_const K (on_surface (lit (-1))) = lit 0.25 /\
  throttle (autopilot K (thin_air true) (on_surface (lit (-1)))) = lit 0.75 /\
  (Pout_const K (on_surface (lit (-0.5))) =? lit 0) = true /\
  throttle (autopilot K (thin_air true) (on_surface (lit (-0.5)))) = lit 0.5.
Proof. vm_compute. repeat split. Qed.

End Binary64.

(* ================================================================== *)
(** ** The code on concrete states, over the reals *)

Section RealSamples.

Local Open Scope R_scope.

Let K : Constants R := mars.
Let climbing : State R := at_200km.
Let in_orbit : State R := start 0.

Lemma magnitude_at_200km : abs (position climbing) = 3586000.
Proof.
  unfold abs, abs2, v3_dot; simpl. to_R.
  apply sqrt_lem_1; lra.
Qed.

Lemma altitude_at_200km : altitude K climbing = 200000.
Proof.
  unfold altitude. rewrite magnitude_at_200km. simpl. to_R. lra.
Qed.

Lemma descent_rate_at_200km : descent_rate climbing = -50.
Proof.
  unfold descent_rate, norm. rewrite magnitude_at_200km.
  unfold v3_dot, v3_div; simpl. to_R. lra.
Qed.

(** C8 as stated fails: at an altitude of 200000 and a descent rate of
    -50 the expression 0.5 * (-(0.5 + 0.02 * 200000 - 50)), and with it
    the P the autopilot computes, is not -1725.25. *)
Lemma P_at_200km_is_not_minus_1725_25 :
  altitude K climbing = 200000 /\
  descent_rate climbing = -50 /\
  0.5 * - (0.5 + 0.02 * 200000 - 50) <> -1725.25 /\
  Pout_const K climbing <> -1725.25.
Proof.
  split; [exact altitude_at_200km | ].
  split; [exact descent_rate_at_200km | ].
  rewrite (Pout_const_value K climbing _ _ altitude_at_200km descent_rate_at_200km).
  split; lra.
Qed.

Lemma magnitude_at_1km : abs (position (at_1km : State R)) = 3387000.
Proof.
  unfold abs, abs2, v3_dot; simpl. to_R.
  apply sqrt_lem_1; lra.
Qed.

(** A use of [autopilot_at_1km]: 1 km up with a radial velocity of -5. *)
Lemma autopilot_at_1km_witness :
  Pout_const K at_1km = -7.75 /\
  throttle (autopilot K vacuum at_1km) = 0.
Proof.
  assert (Ha : altitude K at_1km = 1000).
  { unfold altitude. rewrite magnitude_at_1km. simpl. to_R. lra. }
  assert (Hd : descent_rate (at_1km : State R) = -5).
  { unfold descent_rate, norm. rewrite magnitude_at_1km.
    unfold v3_dot, v3_div; simpl. to_R. lra. }
  destruct (autopilot_at_1km K vacuum at_1km Ha Hd) as (_ & HP & Ht).
  exact (conj HP Ht).
Defined.

(** C8, a use of the theorem: scenario 5 with a radial velocity of -50. *)
Lemma autopilot_at_200km_witness :
  Pout_const K climbing = -1975.25 /\
  throttle (autopilot K vacuum climbing) = 0.
Proof.
  destruct (autopilot_at_200km K vacuum climbing
              altitude_at_200km descent_rate_at_200km) as (_ & HP & Ht).
  exact (conj HP Ht).
Defined.

(** The speed of scenario 0 is not zero. *)
Lemma speed_in_orbit : 0 < abs (velocity in_orbit).
Proof.
  unfold abs, abs2, v3_dot; simpl. to_R.
  apply sqrt_lt_R0. lra.
Qed.

(** C1, a use of the theorem: scenario 0 with no air and no thrust. *)
Lemma numerical_dynamics_is_one_euler_step_witness :
  velocity (numerical_dynamics K vacuum in_orbit)
  = velocity in_orbit
    ^+^ delta_t in_orbit *^ Spec.free_fall_acceleration K in_orbit.
Proof.
  destruct numerical_dynamics_is_one_euler_step as (_ & Hfree).
  apply (Hfree K vacuum in_orbit).
  - simpl. to_R. reflexivity.
  - simpl. unfold zero3. to_R. reflexivity.
  - simpl. discriminate.
  - unfold abs, abs2, v3_dot; simpl. to_R. apply sqrt_lt_R0. lra.
  - exact speed_in_orbit.
Defined.

End RealSamples.

(* ================================================================== *)
(** ** Runs of ticks *)

Section Runs.

Context {double : Type} {D : DoubleOps double}.
Local Open Scope dbl_scope.

Variable K : Constants double.

(** What a tick does to the variables the Euler step leaves alone. *)
Lemma numerical_dynamics_flags (E : Environment double) (s : State double) :
  delta_t (numerical_dynamics K E s) = delta_t s /\
  autopilot_enabled (numerical_dynamics K E s) = autopilot_enabled s /\
  scenario (numerical_dynamics K E s) = scenario s /\
  scenario_description (numerical_dynamics K E s) = scenario_description s /\
  stabilized_attitude (numerical_dynamics K E s)
  = stabilized_attitude s || autopilot_enabled s /\
  throttle (numerical_dynamics K E s)
  = (if autopilot_enabled s then throttle_command K (euler_step K E s)
     else throttle s).
Proof.
  rewrite numerical_dynamics_unfold; cbv zeta.
  change (autopilot_enabled (euler_step K E s)) with (autopilot_enabled s).
  destruct (autopilot_enabled s) eqn:Ha.
  - rewrite autopilot_unfold.
    destruct (deploy_condition K E (euler_step K E s)); simpl;
      rewrite orb_true_r; repeat split; exact Ha.
  - change (stabilized_attitude (euler_step K E s)) with (stabilized_attitude s).
    destruct (stabilized_attitude s) eqn:Hs; simpl; repeat split;
      assumption.
Qed.

Lemma run_ticks_cons (E : Environment double) (Es : list (Environment double))
    (s : State double) :
  run_ticks K (E :: Es) s = run_ticks K Es (numerical_dynamics K E s).
Proof. reflexivity. Qed.

(** The variables no tick writes. *)
Lemma run_ticks_fields (Es : list (Environment double)) :
  forall s : State double,
    fuel (run_ticks K Es s) = fuel s /\
    delta_t (run_ticks K Es s) = delta_t s /\
    autopilot_enabled (run_ticks K Es s) = autopilot_enabled s /\
    scenario (run_ticks K Es s) = scenario s /\
    scenario_description (run_ticks K Es s) = scenario_description s.
Proof.
  induction Es as [| E Es IH]; intros s; [repeat split | ].
  rewrite run_ticks_cons.
  destruct (IH (numerical_dynamics K E s)) as (Hf & Hd & Ha & Hn & Hds).
  destruct (numerical_dynamics_flags E s) as (Hd' & Ha' & Hn' & Hds' & _).
  rewrite Hf, Hd, Ha, Hn, Hds, Hd', Ha', Hn', Hds', numerical_dynamics_fuel.
  repeat split.
Qed.

(** With the autopilot off a run changes neither the throttle nor the
    parachute. *)
Lemma run_ticks_autopilot_off (Es : list (Environment double)) :
  forall s : State double,
    autopilot_enabled s = false ->
    throttle (run_ticks K Es s) = throttle s /\
    parachute_status (run_ticks K Es s) = parachute_status s.
Proof.
  induction Es as [| E Es IH]; intros s Hoff; [now split | ].
  rewrite run_ticks_cons.
  destruct (numerical_dynamics_flags E s) as (_ & Ha & _ & _ & _ & Ht).
  rewrite Hoff in Ha, Ht.
  destruct (IH (numerical_dynamics K E s) Ha) as (Ht' & Hp').
  rewrite Ht', Hp', Ht, numerical_dynamics_parachute_status, Hoff.
  now split.
Qed.

(** For a scenario it defines, what [initialize_simulation] builds
    depends on the state it starts from only through [scenario], [fuel]
    and [throttle]. *)
Lemma initialize_simulation_overwrites (s s' : State double) :
  (0 <= scenario s <= 6)%Z ->
  scenario s' = scenario s ->
  fuel s' = fuel s ->
  throttle s' = throttle s ->
  initialize_simulation K s' = initialize_simulation K s.
Proof.
  intros [Hlo Hhi] Hn Hf Ht. unfold initialize_simulation; cbv zeta.
  change (scenario (set_scenario_description scenario_descriptions s'))
    with (scenario s').
  change (scenario (set_scenario_description scenario_descriptions s))
    with (scenario s).
  rewrite Hn.
  destruct (scenario s) as [| p | p] eqn:Hsc;
    [ | do 3 (try destruct p as [p | p | ]) | ];
    try (unfold preset; simpl; rewrite Hn, Hsc, Hf, Ht; reflexivity);
    exfalso;
    first [ apply Hhi; reflexivity
          | apply Hhi; destruct p; reflexivity
          | apply Hlo; reflexivity ].
Qed.

Lemma initialize_simulation_start (s : State double) :
  (0 <= scenario s <= 6)%Z ->
  scenario (initialize_simulation K s) = scenario s /\
  fuel (initialize_simulation K s) = fuel s /\
  throttle (initialize_simulation K s) = throttle s /\
  delta_t (initialize_simulation K s) = lit 0.1 /\
  autopilot_enabled (initialize_simulation K s) = false.
Proof.
  intros [Hlo Hhi]. unfold initialize_simulation; cbv zeta.
  change (scenario (set_scenario_description scenario_descriptions s))
    with (scenario s).
  destruct (scenario s) as [| p | p] eqn:Hsc;
    [ | do 3 (try destruct p as [p | p | ]) | ];
    try (simpl; rewrite ?Hsc; repeat split; fail);
    exfalso;
    first [ apply Hhi; reflexivity
          | apply Hhi; destruct p; reflexivity
          | apply Hlo; reflexivity ].
Qed.

Lemma initialize_simulation_twice (s : State double) :
  initialize_simulation K (initialize_simulation K s)
  = initialize_simulation K s.
Proof.
  unfold initialize_simulation; cbv zeta.
  change (scenario (set_scenario_description scenario_descriptions s))
    with (scenario s).
  destruct (scenario s) as [| p | p] eqn:Hsc;
    [ | do 3 (try destruct p as [p | p | ]) | ];
    simpl; rewrite ?Hsc; reflexivity.
Qed.

(** Nothing in [lander.cpp] switches the autopilot on: from a scenario
    [initialize_simulation] defines, after any number of ticks the
    autopilot is still off, the parachute is still NOT_DEPLOYED, the
    throttle and the fuel are the ones the state had before the
    initialization, and the time step is 0.1. *)
Theorem scenarios_run_without_autopilot (Es : list (Environment double))
    (s : State double) :
  (0 <= scenario s <= 6)%Z ->
  autopilot_enabled (run_ticks K Es (initialize_simulation K s)) = false /\
  parachute_status (run_ticks K Es (initialize_simulation K s))
  = NOT_DEPLOYED /\
  throttle (run_ticks K Es (initialize_simulation K s)) = throttle s /\
  fuel (run_ticks K Es (initialize_simulation K s)) = fuel s /\
  delta_t (run_ticks K Es (initialize_simulation K s)) = lit 0.1.
Proof.
  intros Hn.
  destruct (initialize_simulation_start s Hn) as (_ & Hf & Ht & Hd & Ha).
  destruct (run_ticks_fields Es (initialize_simulation K s))
    as (Hf' & Hd' & Ha' & _).
  destruct (run_ticks_autopilot_off Es (initialize_simulation K s) Ha)
    as (Ht' & Hp').
  rewrite Ha', Hp', Ht', Hf', Hd', Ha, Ht, Hf, Hd.
  rewrite (initialize_simulation_not_deployed K s Hn).
  repeat split.
Qed.

(** Initializing twice is initializing once; and for a scenario
    [initialize_simulation] defines, initializing again after any number
    of ticks gives back the state the first initialization built. *)
Theorem initialize_simulation_resets :
  (forall s : State double,
     initialize_simulation K (initialize_simulation K s)
     = initialize_simulation K s) /\
  (forall (Es : list (Environment double)) (s : State double),
     (0 <= scenario s <= 6)%Z ->
     initialize_simulation K (run_ticks K Es (initialize_simulation K s))
     = initialize_simulation K s).
Proof.
  split; [exact initialize_simulation_twice | ].
  intros Es s Hn.
  rewrite <- (initialize_simulation_twice s) at 2.
  destruct (initialize_simulation_start s Hn) as (Hsc & _ & _ & _ & Ha).
  destruct (run_ticks_fields Es (initialize_simulation K s))
    as (Hf & _ & _ & Hsc' & _).
  destruct (run_ticks_autopilot_off Es (initialize_simulation K s) Ha)
    as (Ht & _).
  apply initialize_simulation_overwrites; try assumption.
  rewrite Hsc. exact Hn.
Qed.

(** A second call of the autopilot, with the collaborators answering as
    in the first, changes nothing: the throttle is recomputed from the
    same position and velocity, the stabilization is already on, and the
    safety check is asked about the same state or the parachute is
    already deployed. *)
Theorem autopilot_idempotent (E : Environment double) (s : State double) :
  autopilot K E (autopilot K E s) = autopilot K E s.
Proof.
  assert (Hb : forall t : State double,
             position t = position s -> velocity t = velocity s ->
             before_deploy_test K t
             = set_throttle (throttle_command K s)
                 (set_stabilized_attitude true t)).
  { intros t Hp Hv. unfold before_deploy_test. f_equal.
    unfold throttle_command, Pout_const, altitude, descent_rate.
    rewrite Hp, Hv. reflexivity. }
  assert (Hsame : before_deploy_test K (before_deploy_test K s)
                  = before_deploy_test K s)
    by (rewrite (Hb (before_deploy_test K s)); reflexivity).
  assert (Hdep : before_deploy_test K
                   (set_parachute_status DEPLOYED (before_deploy_test K s))
                 = set_parachute_status DEPLOYED (before_deploy_test K s))
    by (rewrite (Hb (set_parachute_status DEPLOYED (before_deploy_test K s)));
        reflexivity).
  rewrite (autopilot_unfold K E s).
  destruct (deploy_condition K E s) eqn:Hc; rewrite autopilot_unfold.
  - rewrite Hdep.
    destruct (deploy_condition K E
                (set_parachute_status DEPLOYED (before_deploy_test K s)));
      reflexivity.
  - unfold deploy_condition at 1. rewrite Hsame.
    change (altitude K (before_deploy_test K s)) with (altitude K s).
    fold (deploy_condition K E s). rewrite Hc. reflexivity.
Qed.

(** Along any run of ticks [fuel], the mass of line 60, [delta_t],
    [autopilot_enabled], [scenario] and the descriptions stay what they
    were; [stabilized_attitude] is never switched off: after the run it
    is on exactly when it was on before, or the autopilot is enabled and
    the run has at least one tick. *)
Theorem run_ticks_keeps_configuration (Es : list (Environment double))
    (s : State double) :
  fuel (run_ticks K Es s) = fuel s /\
  mass K (run_ticks K Es s) = mass K s /\
  delta_t (run_ticks K Es s) = delta_t s /\
  autopilot_enabled (run_ticks K Es s) = autopilot_enabled s /\
  scenario (run_ticks K Es s) = scenario s /\
  scenario_description (run_ticks K Es s) = scenario_description s /\
  stabilized_attitude (run_ticks K Es s)
  = stabilized_attitude s
    || (autopilot_enabled s && negb (Nat.eqb (List.length Es) 0)).
Proof.
  destruct (run_ticks_fields Es s) as (Hf & Hd & Ha & Hn & Hds).
  split; [exact Hf | ].
  split; [unfold mass; rewrite Hf; reflexivity | ].
  do 4 (split; [assumption | ]).
  clear Hf Hd Ha Hn Hds. revert s.
  induction Es as [| E Es IH]; intros s.
  - simpl. rewrite andb_false_r, orb_false_r. reflexivity.
  - rewrite run_ticks_cons, IH.
    destruct (numerical_dynamics_flags E s) as (_ & Ha & _ & _ & Hs & _).
    rewrite Ha, Hs. simpl.
    destruct (stabilized_attitude s), (autopilot_enabled s);
      simpl; rewrite ?andb_false_r; reflexivity.
Qed.

End Runs.

(* ================================================================== *)
(** ** The control law and the forces, over the reals *)

Section RealLaws.

Local Open Scope R_scope.

Variable K : Constants R.

Lemma throttle_map_range (p : R) : 0 <= Spec.throttle_map p <= 1.
Proof.
  unfold Spec.throttle_map, Spec.Offset.
  destruct (Rle_dec p (- (0.5))); [lra | ].
  destruct (Rlt_dec p (1 - 0.5)); lra.
Qed.

Lemma throttle_map_monotone (p q : R) :
  p <= q -> Spec.throttle_map p <= Spec.throttle_map q.
Proof.
  intros Hpq. unfold Spec.throttle_map, Spec.Offset.
  destruct (Rle_dec p (- (0.5))), (Rle_dec q (- (0.5)));
    try destruct (Rlt_dec p (1 - 0.5)); try destruct (Rlt_dec q (1 - 0.5));
    lra.
Qed.

Lemma Pout_const_formula (s : State R) :
  Pout_const K s = 0.5 * - (0.5 + 0.02 * altitude K s + descent_rate s).
Proof. reflexivity. Qed.

(** The control law solved for the altitude and the descent rate: the
    throttle is 0.25 - 0.01 altitude - 0.5 descent_rate clamped to
    [0, 1]; the engine is off exactly when
    0.02 altitude + descent_rate >= 0.5, at full throttle exactly when
    0.02 altitude + descent_rate <= -1.5, and at or above the bias 0.5
    exactly when the lander descends at least as fast as the profile
    -(0.5 + 0.02 altitude). *)
Theorem autopilot_throttle_thresholds (E : Environment R) (s : State R) :
  throttle (autopilot K E s)
  = Rmax 0 (Rmin 1 (0.25 - 0.01 * altitude K s - 0.5 * descent_rate s)) /\
  (throttle (autopilot K E s) = 0
   <-> 0.5 <= 0.02 * altitude K s + descent_rate s) /\
  (throttle (autopilot K E s) = 1
   <-> 0.02 * altitude K s + descent_rate s <= -1.5) /\
  (0.5 <= throttle (autopilot K E s)
   <-> descent_rate s <= - (0.5 + 0.02 * altitude K s)).
Proof.
  rewrite autopilot_throttle, throttle_command_map.
  pose proof (Pout_const_formula s) as HP.
  split.
  - rewrite throttle_map_clamp. unfold Spec.Offset. do 2 f_equal. lra.
  - unfold Spec.throttle_map, Spec.Offset.
    destruct (Rle_dec (Pout_const K s) (- (0.5)));
      [ | destruct (Rlt_dec (Pout_const K s) (1 - 0.5)) ];
      repeat split; intros; lra.
Qed.

(** The throttle never rises with the altitude or with the descent rate:
    of two states, the one that is no lower and climbs no slower gets no
    more throttle, whatever else differs between them. *)
Theorem autopilot_throttle_antitone (E E' : Environment R) (s s' : State R) :
  altitude K s <= altitude K s' ->
  descent_rate s <= descent_rate s' ->
  throttle (autopilot K E' s') <= throttle (autopilot K E s).
Proof.
  intros Ha Hd. rewrite !autopilot_throttle, !throttle_command_map.
  apply throttle_map_monotone. rewrite !Pout_const_formula. lra.
Qed.

Lemma numerical_dynamics_throttle_range (E : Environment R) (s : State R) :
  0 <= throttle s <= 1 -> 0 <= throttle (numerical_dynamics K E s) <= 1.
Proof.
  intros Hs.
  destruct (numerical_dynamics_flags K E s) as (_ & _ & _ & _ & _ & Ht).
  rewrite Ht. destruct (autopilot_enabled s); [ | exact Hs].
  rewrite throttle_command_map. apply throttle_map_range.
Qed.

(** A throttle in [0, 1] stays in [0, 1] along any run of ticks; with the
    autopilot enabled the throttle is in [0, 1] after one tick or more,
    whatever it was before. *)
Theorem run_ticks_throttle_range (Es : list (Environment R)) (s : State R) :
  (0 <= throttle s <= 1 -> 0 <= throttle (run_ticks K Es s) <= 1) /\
  (autopilot_enabled s = true -> Es <> [] ->
   0 <= throttle (run_ticks K Es s) <= 1).
Proof.
  assert (Hrun : forall (l : list (Environment R)) (t : State R),
             0 <= throttle t <= 1 -> 0 <= throttle (run_ticks K l t) <= 1).
  { induction l as [| E l IH]; intros t Ht; [exact Ht | ].
    rewrite run_ticks_cons. apply IH, numerical_dynamics_throttle_range, Ht. }
  split; [apply Hrun | ].
  intros Ha Hne. destruct Es as [| E Es]; [now elim Hne | ].
  rewrite run_ticks_cons. apply Hrun.
  destruct (numerical_dynamics_flags K E s) as (_ & _ & _ & _ & _ & Ht).
  rewrite Ht, Ha, throttle_command_map. apply throttle_map_range.
Qed.

End RealLaws.

(* ================================================================== *)
(** ** The forces, over the reals *)

Section RealForces.

Local Open Scope R_scope.

Variable K : Constants R.
Variable E : Environment R.

(** The square of the magnitude is the sum of the squares. *)
Lemma abs_square (v : vector3d R) :
  abs v * abs v = vx v * vx v + vy v * vy v + vz v * vz v.
Proof.
  unfold abs, abs2, v3_dot. to_R. apply sqrt_sqrt.
  pose proof (Rle_0_sqr (vx v)); pose proof (Rle_0_sqr (vy v));
    pose proof (Rle_0_sqr (vz v)). unfold Rsqr in *. lra.
Qed.


(** Gravity is central and follows the inverse-square law: away from the
    centre, with G M >= 0, the gravity term is -(G M / r^3) times the
    position, and its magnitude is G M / r^2. *)
Theorem gravity_inverse_square (s : State R) :
  0 <= GRAVITY K * MARS_MASS K ->
  0 < abs (position s) ->
  gravity_acceleration K s
  = (- (GRAVITY K * MARS_MASS K) / abs (position s) ^ 3) *^ position s /\
  abs (gravity_acceleration K s)
  = GRAVITY K * MARS_MASS K / abs (position s) ^ 2.
Proof.
  intros HGM Hr.
  assert (Hg : gravity_acceleration K s
               = (- (GRAVITY K * MARS_MASS K) / abs (position s) ^ 3)
                 *^ position s).
  { unfold gravity_acceleration, normalr, modulusr, norm.
    set (r := abs (position s)) in *.
    apply vector3d_eq; simpl; to_R; field; lra. }
  split; [exact Hg | ].
  rewrite Hg. pose proof (abs_square (position s)) as Hsq.
  set (r := abs (position s)) in *.
  unfold abs at 1, abs2, v3_dot; simpl. to_R.
  assert (Hinv : 0 < / r) by (apply Rinv_0_lt_compat; exact Hr).
  apply sqrt_lem_1.
  - match goal with |- 0 <= ?a * ?a + ?b * ?b + ?c * ?c =>
      pose proof (Rle_0_sqr a); pose proof (Rle_0_sqr b);
      pose proof (Rle_0_sqr c); unfold Rsqr in *; lra end.
  - unfold Rdiv. apply Rmult_le_pos; [exact HGM | ].
    apply Rlt_le, Rinv_0_lt_compat. simpl. nra.
  - transitivity
      ((- (GRAVITY K * MARS_MASS K) / r ^ 3) * (- (GRAVITY K * MARS_MASS K) / r ^ 3)
       * (r * r)); [ field; lra | rewrite Hsq; simpl pow; field; lra ].
Qed.




(** At a position and a velocity of nonzero magnitude (where the
    normalisation divides by a nonzero number), a tick with a zero time
    step moves nothing: position and velocity are the ones before, and
    with the autopilot and the stabilization off the state is
    unchanged. *)
Theorem zero_time_step (s : State R) :
  delta_t s = 0 ->
  0 < abs (position s) ->
  0 < abs (velocity s) ->
  position (numerical_dynamics K E s) = position s /\
  velocity (numerical_dynamics K E s) = velocity s /\
  (autopilot_enabled s = false -> stabilized_attitude s = false ->
   numerical_dynamics K E s = s).
Proof.
  intros Hdt _ _.
  rewrite numerical_dynamics_position, numerical_dynamics_velocity, Hdt.
  assert (Hp : position s ^+^ 0 *^ velocity s = position s)
    by (apply vector3d_eq; simpl; to_R; ring).
  assert (Hv : velocity s ^+^ 0 *^ acceleration K E s = velocity s)
    by (apply vector3d_eq; simpl; to_R; ring).
  split; [exact Hp | split; [exact Hv | ]].
  intros Ha Hs. rewrite numerical_dynamics_unfold; cbv zeta.
  change (autopilot_enabled (euler_step K E s)) with (autopilot_enabled s).
  rewrite Ha.
  change (stabilized_attitude (euler_step K E s)) with (stabilized_attitude s).
  rewrite Hs. unfold euler_step. rewrite Hdt, Hp, Hv.
  destruct s; reflexivity.
Qed.

(** The two descents start where their descriptions say: scenario 1
    (descent from 10km) at an altitude of 10000 m and scenario 5 at the
    altitude EXOSPHERE, both with no radial velocity; in scenario 1 the
    first command of the autopilot is engine off. *)
Theorem descent_scenarios_start (s : State R) :
  0 <= MARS_RADIUS K ->
  0 <= EXOSPHERE K ->
  (scenario s = 1%Z ->
   altitude K (initialize_simulation K s) = 10000 /\
   descent_rate (initialize_simulation K s) = 0 /\
   throttle (autopilot K E (initialize_simulation K s)) = 0) /\
  (scenario s = 5%Z ->
   altitude K (initialize_simulation K s) = EXOSPHERE K /\
   descent_rate (initialize_simulation K s) = 0).
Proof.
  intros HR HX.
  assert (Hmag : forall y : R, 0 <= y ->
            abs (Vector3d 0 (- y) 0) = y).
  { intros y Hy. unfold abs, abs2, v3_dot; simpl. to_R.
    apply sqrt_lem_1; [nra | exact Hy | ring]. }
  split; intros Hsc.
  - assert (Hpos : position (initialize_simulation K s)
                   = Vector3d 0 (- (MARS_RADIUS K + 10000)) 0).
    { unfold initialize_simulation; cbv zeta.
      change (scenario (set_scenario_description scenario_descriptions s))
        with (scenario s).
      rewrite Hsc. simpl. to_R. reflexivity. }
    assert (Hvel : velocity (initialize_simulation K s) = Vector3d 0 0 0).
    { unfold initialize_simulation; cbv zeta.
      change (scenario (set_scenario_description scenario_descriptions s))
        with (scenario s).
      rewrite Hsc. simpl. to_R. reflexivity. }
    assert (Ha : altitude K (initialize_simulation K s) = 10000).
    { unfold altitude. rewrite Hpos, Hmag by lra. to_R. lra. }
    assert (Hd : descent_rate (initialize_simulation K s) = 0).
    { unfold descent_rate. rewrite Hvel.
      unfold v3_dot; simpl. to_R. ring. }
    split; [exact Ha | split; [exact Hd | ]].
    rewrite autopilot_throttle, throttle_command_map.
    destruct (throttle_map_regions (Pout_const K (initialize_simulation K s)))
      as (Hlow & _).
    apply Hlow. rewrite (Pout_const_value K _ _ _ Ha Hd).
    unfold Spec.Offset. lra.
  - assert (Hpos : position (initialize_simulation K s)
                   = Vector3d 0 (- (MARS_RADIUS K + EXOSPHERE K)) 0).
    { unfold initialize_simulation; cbv zeta.
      change (scenario (set_scenario_description scenario_descriptions s))
        with (scenario s).
      rewrite Hsc. simpl. to_R. reflexivity. }
    assert (Hvel : velocity (initialize_simulation K s) = Vector3d 0 0 0).
    { unfold initialize_simulation; cbv zeta.
      change (scenario (set_scenario_description scenario_descriptions s))
        with (scenario s).
      rewrite Hsc. simpl. to_R. reflexivity. }
    split.
    + unfold altitude. rewrite Hpos, Hmag by lra. to_R. lra.
    + unfold descent_rate. rewrite Hvel.
      unfold v3_dot; simpl. to_R. ring.
Qed.


End RealForces.

(* ================================================================== *)
(** ** NaN in binary64 *)

Section Binary64NaN.

Local Abbreviation float := PrimFloat.float.
Local Abbreviation nan := PrimFloat.nan.
Local Open Scope dbl_scope.

Lemma Prim2SF_nan : FloatOps.Prim2SF nan = SpecFloat.S754_nan.
Proof. reflexivity. Qed.

Ltac float_nan :=
  cbv [dadd dsub dmul ddiv dopp dsqrt dle dlt deq float_double];
  first [ apply FloatAxioms.Prim2SF_inj;
          rewrite ?FloatAxioms.add_spec, ?FloatAxioms.sub_spec,
            ?FloatAxioms.mul_spec, ?FloatAxioms.div_spec,
            ?FloatAxioms.opp_spec, ?FloatAxioms.sqrt_spec
        | rewrite ?FloatAxioms.leb_spec, ?FloatAxioms.ltb_spec ];
  rewrite Prim2SF_nan;
  try reflexivity;
  match goal with
  | |- context [FloatOps.Prim2SF ?x] =>
      destruct (FloatOps.Prim2SF x) as [ [|] | [|] | | [|] ? ? ]; reflexivity
  end.

Lemma add_nan_l (x : float) : nan + x = nan.
Proof. float_nan. Qed.
Lemma add_nan_r (x : float) : x + nan = nan.
Proof. float_nan. Qed.
Lemma sub_nan_l (x : float) : nan - x = nan.
Proof. float_nan. Qed.
Lemma sub_nan_r (x : float) : x - nan = nan.
Proof. float_nan. Qed.
Lemma mul_nan_l (x : float) : nan * x = nan.
Proof. float_nan. Qed.
Lemma mul_nan_r (x : float) : x * nan = nan.
Proof. float_nan. Qed.
Lemma div_nan_l (x : float) : nan / x = nan.
Proof. float_nan. Qed.
Lemma div_nan_r (x : float) : x / nan = nan.
Proof. float_nan. Qed.
Lemma opp_nan : - nan = nan.
Proof. reflexivity. Qed.
Lemma sqrt_nan : dsqrt nan = nan.
Proof. reflexivity. Qed.
Lemma le_nan_l (x : float) : (nan <=? x) = false.
Proof. float_nan. Qed.
Lemma lt_nan_l (x : float) : (nan <? x) = false.
Proof. float_nan. Qed.


Local Abbreviation v3 := (vector3d float).

Lemma v3_add_all_nan_l (v : v3) : all_nan ^+^ v = all_nan.
Proof. unfold v3_add, all_nan; simpl. rewrite !add_nan_l. reflexivity. Qed.
Lemma v3_add_all_nan_r (v : v3) : v ^+^ all_nan = all_nan.
Proof. unfold v3_add, all_nan; simpl. rewrite !add_nan_r. reflexivity. Qed.
Lemma v3_sub_all_nan_l (v : v3) : all_nan ^-^ v = all_nan.
Proof. unfold v3_sub, all_nan; simpl. rewrite !sub_nan_l. reflexivity. Qed.
Lemma v3_sub_all_nan_r (v : v3) : v ^-^ all_nan = all_nan.
Proof. unfold v3_sub, all_nan; simpl. rewrite !sub_nan_r. reflexivity. Qed.
Lemma v3_scale_all_nan (a : float) : a *^ all_nan = all_nan.
Proof. unfold v3_scale, all_nan; simpl. rewrite !mul_nan_r. reflexivity. Qed.
Lemma v3_div_all_nan (a : float) : all_nan ^/ a = all_nan.
Proof. unfold v3_div, all_nan; simpl. rewrite !div_nan_l. reflexivity. Qed.
Lemma v3_div_by_nan (v : v3) : v ^/ nan = all_nan.
Proof. unfold v3_div, all_nan. rewrite !div_nan_r. reflexivity. Qed.
Lemma v3_dot_all_nan_r (v : v3) : v ^*^ all_nan = nan.
Proof.
  unfold v3_dot, all_nan; simpl. rewrite !mul_nan_r, !add_nan_l. reflexivity.
Qed.

Lemma v3_dot_nan_l (u w : v3) : has_nan u -> u ^*^ w = nan.
Proof.
  unfold v3_dot. intros [H | [H | H]]; rewrite H;
    rewrite ?mul_nan_l, ?add_nan_r, ?add_nan_l; reflexivity.
Qed.

Lemma v3_dot_nan_r (u w : v3) : has_nan w -> u ^*^ w = nan.
Proof.
  unfold v3_dot. intros [H | [H | H]]; rewrite H;
    rewrite ?mul_nan_r, ?add_nan_r, ?add_nan_l; reflexivity.
Qed.

Lemma abs_has_nan (v : v3) : has_nan v -> abs v = nan.
Proof.
  intros H. unfold abs, abs2. rewrite (v3_dot_nan_l v v H). apply sqrt_nan.
Qed.

Lemma norm_has_nan (v : v3) : has_nan v -> norm v = all_nan.
Proof. intros H. unfold norm. rewrite (abs_has_nan v H). apply v3_div_by_nan. Qed.

Variable K : Constants float.

Lemma Pout_const_nan (s : State float) :
  has_nan (position s) \/ has_nan (velocity s) -> Pout_const K s = nan.
Proof.
  intros H. unfold Pout_const.
  assert (Hd : descent_rate s = nan).
  { unfold descent_rate. destruct H as [H | H].
    - rewrite (norm_has_nan _ H). apply v3_dot_all_nan_r.
    - apply v3_dot_nan_l, H. }
  rewrite Hd, add_nan_r, opp_nan, mul_nan_r. reflexivity.
Qed.

Lemma acceleration_nan (E : Environment float) (s : State float) :
  has_nan (position s) \/ has_nan (velocity s) ->
  acceleration K E s = all_nan.
Proof.
  intros H.
  assert (Hterm : gravity_acceleration K s = all_nan
                  \/ drag_lander_acceleration K E s = all_nan).
  { destruct H as [H | H]; [left | right].
    - unfold gravity_acceleration, normalr.
      rewrite (norm_has_nan _ H), v3_scale_all_nan. apply v3_div_all_nan.
    - unfold drag_lander_acceleration, normalv.
      rewrite (norm_has_nan _ H), v3_scale_all_nan. apply v3_div_all_nan. }
  unfold acceleration.
  destruct (parachute_status_eqb (parachute_status s) DEPLOYED);
    destruct Hterm as [Hg | Hd]; rewrite ?Hg, ?Hd;
    repeat first [ rewrite v3_sub_all_nan_l | rewrite v3_sub_all_nan_r
                 | rewrite v3_add_all_nan_l ];
    reflexivity.
Qed.

(** A NaN in the position or the velocity makes P NaN; both tests of
    lines 28 and 32 are then false and the autopilot commands full
    throttle; with a NaN in the position the altitude test of line 40 is
    false as well and the parachute is left as it is. *)
Theorem autopilot_nan_full_throttle (E : Environment float)
    (s : State float) :
  has_nan (position s) \/ has_nan (velocity s) ->
  Pout_const K s = nan /\
  throttle (autopilot K E s) = lit 1 /\
  (has_nan (position s) ->
   parachute_status (autopilot K E s) = parachute_status s).
Proof.
  intros H. pose proof (Pout_const_nan s H) as HP.
  split; [exact HP | split].
  - rewrite autopilot_throttle. unfold throttle_command.
    rewrite HP, le_nan_l, lt_nan_l. reflexivity.
  - intros Hp. rewrite autopilot_parachute_status. unfold deploy_condition.
    unfold altitude. rewrite (abs_has_nan _ Hp), sub_nan_l, le_nan_l.
    reflexivity.
Qed.

(** NaN spreads and never heals: with a NaN in one component of the
    position or of the velocity, every component of the velocity is NaN
    after one tick and every component of the position after two, and
    they stay NaN through any further ticks. *)
Theorem numerical_dynamics_nan_spreads (E : Environment float)
    (s : State float) :
  has_nan (position s) \/ has_nan (velocity s) ->
  velocity (numerical_dynamics K E s) = all_nan /\
  forall (E' : Environment float) (Es : list (Environment float)),
    position (run_ticks K Es (numerical_dynamics K E'
                                (numerical_dynamics K E s))) = all_nan /\
    velocity (run_ticks K Es (numerical_dynamics K E'
                                (numerical_dynamics K E s))) = all_nan.
Proof.
  assert (Hstep : forall (E0 : Environment float) (t : State float),
            has_nan (position t) \/ has_nan (velocity t) ->
            velocity (numerical_dynamics K E0 t) = all_nan).
  { intros E0 t Ht. rewrite numerical_dynamics_velocity.
    rewrite (acceleration_nan E0 t Ht), v3_scale_all_nan.
    apply v3_add_all_nan_r. }
  assert (Hnext : forall (E0 : Environment float) (t : State float),
            velocity t = all_nan ->
            position (numerical_dynamics K E0 t) = all_nan /\
            velocity (numerical_dynamics K E0 t) = all_nan).
  { intros E0 t Ht. split.
    - rewrite numerical_dynamics_position, Ht, v3_scale_all_nan.
      apply v3_add_all_nan_r.
    - apply Hstep. right. rewrite Ht. left. reflexivity. }
  assert (Hrun : forall (Es : list (Environment float)) (t : State float),
            position t = all_nan -> velocity t = all_nan ->
            position (run_ticks K Es t) = all_nan /\
            velocity (run_ticks K Es t) = all_nan).
  { induction Es as [| E0 Es IH]; intros t Hp Hv; [now split | ].
    rewrite run_ticks_cons.
    destruct (Hnext E0 t Hv) as (Hp' & Hv'). apply IH; assumption. }
  intros H. pose proof (Hstep E s H) as Hv.
  split; [exact Hv | ].
  intros E' Es. destruct (Hnext E' _ Hv) as (Hp' & Hv').
  apply Hrun; assumption.
Qed.

End Binary64NaN.

(* ================================================================== *)
(** ** No guard on the magnitudes *)

Section AnyNormalisationFacts.

Context {double : Type} {D : DoubleOps double}.
Local Open Scope dbl_scope.

Variable N : vector3d double -> vector3d double.
Variable K : Constants double.
Variable E : Environment double.

Lemma autopilot_with_frame (s : State double) :
  position (autopilot_with N K E s) = position s /\
  velocity (autopilot_with N K E s) = velocity s.
Proof.
  unfold autopilot_with; cbv zeta.
  repeat match goal with
         | |- context [if ?c then _ else _] => destruct c
         end; split; reflexivity.
Qed.

Lemma numerical_dynamics_with_position (s : State double) :
  position (numerical_dynamics_with N K E s)
  = position s ^+^ delta_t s *^ velocity s.
Proof.
  unfold numerical_dynamics_with; cbv zeta.
  destruct (parachute_status_eqb (parachute_status s) DEPLOYED);
    match goal with
    | |- context [autopilot_with N K E ?t] =>
        destruct (autopilot_with_frame t) as (Hp & _);
        destruct (autopilot_enabled t);
        [ destruct (stabilized_attitude (autopilot_with N K E t)); exact Hp
        | destruct (stabilized_attitude t); reflexivity ]
    end.
Qed.

Lemma numerical_dynamics_with_velocity (s : State double) :
  velocity (numerical_dynamics_with N K E s)
  = velocity s ^+^ delta_t s
      *^ (if parachute_status_eqb (parachute_status s) DEPLOYED
          then gravity_of K s (N (position s))
               ^-^ drag_lander_of K E s (N (velocity s))
               ^-^ drag_chute_of K E s (N (velocity s))
               ^+^ thrust_acceleration K E s
          else gravity_of K s (N (position s))
               ^-^ drag_lander_of K E s (N (velocity s))
               ^+^ thrust_acceleration K E s).
Proof.
  unfold numerical_dynamics_with; cbv zeta.
  destruct (parachute_status_eqb (parachute_status s) DEPLOYED);
    match goal with
    | |- context [autopilot_with N K E ?t] =>
        destruct (autopilot_with_frame t) as (_ & Hv);
        destruct (autopilot_enabled t);
        [ destruct (stabilized_attitude (autopilot_with N K E t)); exact Hv
        | destruct (stabilized_attitude t); reflexivity ]
    end.
Qed.

End AnyNormalisationFacts.

Section ZeroMagnitude.

Local Abbreviation float := PrimFloat.float.
Local Abbreviation nan := PrimFloat.nan.
Local Open Scope dbl_scope.

(** What [== 0] accepts is a zero. *)
Lemma eq_zero_zero_or_nan (x : float) : (x =? lit 0) = true -> zero_or_nan x.
Proof.
  cbv [deq float_double]. rewrite FloatAxioms.eqb_spec.
  unfold zero_or_nan.
  replace (FloatOps.Prim2SF (lit 0)) with (SpecFloat.S754_zero false)
    by (vm_compute; reflexivity).
  destruct (FloatOps.Prim2SF x) as [ [|] | [|] | | [|] ? ? ];
    simpl; intros H; try exact I; discriminate H.
Qed.

(** Anything times a zero is a zero or NaN; anything over a zero is an
    infinity or NaN; and a zero times an infinity is NaN. *)
Lemma mul_zero_or_nan (c x : float) : zero_or_nan x -> zero_or_nan (c * x).
Proof.
  unfold zero_or_nan. cbv [dmul float_double].
  rewrite FloatAxioms.mul_spec.
  destruct (FloatOps.Prim2SF x) as [ [|] | [|] | | [|] ? ? ]; intros H;
    try (exfalso; exact H);
    destruct (FloatOps.Prim2SF c) as [ [|] | [|] | | [|] ? ? ]; exact I.
Qed.

Lemma div_zero_or_nan (x z : float) :
  zero_or_nan z -> infinite_or_nan (x / z).
Proof.
  unfold zero_or_nan, infinite_or_nan. cbv [ddiv float_double].
  rewrite FloatAxioms.div_spec.
  destruct (FloatOps.Prim2SF z) as [ [|] | [|] | | [|] ? ? ]; intros H;
    try (exfalso; exact H);
    destruct (FloatOps.Prim2SF x) as [ [|] | [|] | | [|] ? ? ]; exact I.
Qed.

Lemma mul_zero_infinite (k n : float) :
  zero_or_nan k -> infinite_or_nan n -> k * n = nan.
Proof.
  unfold zero_or_nan, infinite_or_nan. cbv [dmul float_double]. intros Hk Hn.
  apply FloatAxioms.Prim2SF_inj. rewrite FloatAxioms.mul_spec.
  destruct (FloatOps.Prim2SF k) as [ [|] | [|] | | [|] ? ? ];
    try (exfalso; exact Hk);
    destruct (FloatOps.Prim2SF n) as [ [|] | [|] | | [|] ? ? ];
    try (exfalso; exact Hn); reflexivity.
Qed.

(** A drag term of lines 62 and 64 at a velocity of zero magnitude, with
    the unguarded division as the normalisation: the coefficient ends in
    [* modulusv * modulusv], a zero or NaN, and each component of
    [normalv] is a component of the velocity over zero. *)
Lemma drag_zero_magnitude (c m : float) (v : vector3d float) :
  (abs v =? lit 0) = true ->
  (c * abs v * abs v) *^ norm v ^/ m = all_nan.
Proof.
  intros H. apply eq_zero_zero_or_nan in H.
  assert (Hk : zero_or_nan (c * abs v * abs v))
    by (apply mul_zero_or_nan, H).
  unfold norm, v3_scale, v3_div, all_nan; simpl.
  rewrite !(mul_zero_infinite _ _ Hk) by (apply div_zero_or_nan, H).
  rewrite !div_nan_l. reflexivity.
Qed.

(** The unguarded division at the origin is 0/0 in every component. *)
Lemma norm_of_zero :
  norm (Vector3d (lit 0) (lit 0) (lit 0) : vector3d float) = all_nan.
Proof. vm_compute. reflexivity. Qed.

(** C7, as amended: [numerical_dynamics] tests no magnitude.  Whatever
    the normalisation [N] of [lander.h] returns, also for a vector of
    zero magnitude, a tick ends with the Euler step whose acceleration is
    built from [N position] (gravity) and [N velocity] (both drag
    terms).  So what a tick gives at zero magnitude is decided by [N]
    alone.  In binary64, with the unguarded division of the spec as [N]
    (which makes [numerical_dynamics_with] the [numerical_dynamics] of
    this file), every state at the origin or whose velocity has
    magnitude zero comes out of the tick with a velocity that is NaN in
    every component, where the guarded tick of the spec ends in an
    error; with an [N] that
    agrees with the division on every vector of nonzero magnitude and
    returns a vector of zero magnitude as it is, the tick from rest of
    scenario 1 is the analytic free-fall step. *)
Theorem numerical_dynamics_has_no_guard :
  (forall (double : Type) (D : DoubleOps double)
          (N : vector3d double -> vector3d double)
          (K : Constants double) (E : Environment double) (s : State double),
     position (numerical_dynamics_with N K E s)
     = position s ^+^ delta_t s *^ velocity s /\
     velocity (numerical_dynamics_with N K E s)
     = velocity s ^+^ delta_t s
         *^ (if parachute_status_eqb (parachute_status s) DEPLOYED
             then gravity_of K s (N (position s))
                  ^-^ drag_lander_of K E s (N (velocity s))
                  ^-^ drag_chute_of K E s (N (velocity s))
                  ^+^ thrust_acceleration K E s
             else gravity_of K s (N (position s))
                  ^-^ drag_lander_of K E s (N (velocity s))
                  ^+^ thrust_acceleration K E s)) /\
  (forall (double : Type) (D : DoubleOps double)
          (K : Constants double) (E : Environment double) (s : State double),
     numerical_dynamics_with norm K E s = numerical_dynamics K E s) /\
  (forall (K : Constants float) (E : Environment float) (s : State float),
     position s = Vector3d (lit 0) (lit 0) (lit 0)
     \/ (abs (velocity s) =? lit 0) = true ->
     velocity (numerical_dynamics_with norm K E s) = all_nan /\
     exists which, guarded_tick K E s = ArithmeticDomainError which) /\
  (exists N' : vector3d float -> vector3d float,
     (forall v, (abs v =? lit 0) = false -> N' v = norm v) /\
     (forall v, (abs v =? lit 0) = true -> N' v = v) /\
     velocity (numerical_dynamics_with N' mars (thin_air true) (start 1))
     = analytic_free_fall_velocity mars (start 1)).
Proof.
  split; [ | split; [ | split ] ].
  - intros double D N K E s.
    split; [apply numerical_dynamics_with_position
           | apply numerical_dynamics_with_velocity].
  - intros double D K E s. reflexivity.
  - intros K E s Hzero. split.
    + rewrite numerical_dynamics_with_velocity.
      assert (Hterm : gravity_of K s (norm (position s)) = all_nan
                      \/ drag_lander_of K E s (norm (velocity s)) = all_nan).
      { destruct Hzero as [Hp | Hv]; [left | right].
        - unfold gravity_of. rewrite Hp, norm_of_zero, v3_scale_all_nan.
          apply v3_div_all_nan.
        - unfold drag_lander_of, modulusv. apply drag_zero_magnitude, Hv. }
      destruct (parachute_status_eqb (parachute_status s) DEPLOYED);
        destruct Hterm as [Hg | Hd]; rewrite ?Hg, ?Hd;
        repeat first [ rewrite v3_sub_all_nan_l | rewrite v3_sub_all_nan_r
                     | rewrite v3_add_all_nan_l ];
        rewrite v3_scale_all_nan; apply v3_add_all_nan_r.
    + unfold guarded_tick. destruct Hzero as [Hp | Hv].
      * rewrite Hp.
        replace (abs (Vector3d (lit 0) (lit 0) (lit 0) : vector3d float)
                 =? lit 0)
          with true by (vm_compute; reflexivity).
        eexists; reflexivity.
      * destruct (abs (position s) =? lit 0); [eexists; reflexivity | ].
        rewrite Hv. eexists; reflexivity.
  - exists (fun v => if abs v =? lit 0 then v else norm v).
    split; [ | split ].
    + intros v Hv. rewrite Hv. reflexivity.
    + intros v Hv. rewrite Hv. reflexivity.
    + vm_compute. reflexivity.
Qed.

(** C7, a use of the theorem: scenario 1 starts at rest. *)
Lemma numerical_dynamics_has_no_guard_witness :
  (abs (velocity (start 1 : State float)) =? lit 0) = true /\
  velocity (numerical_dynamics_with norm mars (thin_air true) (start 1))
  = all_nan.
Proof.
  destruct numerical_dynamics_has_no_guard as (_ & _ & Hrest & _).
  assert (H0 : (abs (velocity (start 1 : State float)) =? lit 0) = true)
    by (vm_compute; reflexivity).
  split; [exact H0 | ].
  apply (Hrest mars (thin_air true) (start 1) (or_intror H0)).
Defined.

End ZeroMagnitude.

(* ================================================================== *)
(** ** Uses of the further theorems on concrete states *)

Section FurtherSamples64.

Local Abbreviation float := PrimFloat.float.
Local Open Scope dbl_scope.

Let K : Constants float := mars.

(** Scenario 1, two ticks: the autopilot is still off and the parachute
    still stowed. *)
Lemma scenarios_run_without_autopilot_witness :
  autopilot_enabled
    (run_ticks K [thin_air true; thin_air false]
       (initialize_simulation K (blank 1))) = false /\
  parachute_status
    (run_ticks K [thin_air true; thin_air false]
       (initialize_simulation K (blank 1))) = NOT_DEPLOYED /\
  throttle
    (run_ticks K [thin_air true; thin_air false]
       (initialize_simulation K (blank 1))) = throttle (blank 1).
Proof.
  destruct (scenarios_run_without_autopilot K
              [thin_air true; thin_air false] (blank 1))
    as (Ha & Hp & Ht & _); [split; discriminate | ].
  exact (conj Ha (conj Hp Ht)).
Defined.

(** Scenario 0: initializing again after a tick gives the start back. *)
Lemma initialize_simulation_resets_witness :
  initialize_simulation K
    (run_ticks K [thin_air true] (initialize_simulation K (blank 0)))
  = initialize_simulation K (blank 0).
Proof.
  destruct (initialize_simulation_resets K) as (_ & Hreset).
  apply Hreset. split; discriminate.
Defined.

(** Scenario 0 with a NaN in the x component of the velocity. *)
Lemma autopilot_nan_full_throttle_witness :
  throttle
    (autopilot K (thin_air true)
       (set_velocity (Vector3d PrimFloat.nan (lit 0) (lit 0)) (start 0)))
  = lit 1.
Proof.
  destruct (autopilot_nan_full_throttle K (thin_air true)
              (set_velocity (Vector3d PrimFloat.nan (lit 0) (lit 0)) (start 0)))
    as (_ & Ht & _); [right; left; reflexivity | exact Ht].
Defined.

Lemma numerical_dynamics_nan_spreads_witness :
  velocity
    (numerical_dynamics K (thin_air true)
       (set_velocity (Vector3d PrimFloat.nan (lit 0) (lit 0)) (start 0)))
  = all_nan.
Proof.
  destruct (numerical_dynamics_nan_spreads K (thin_air true)
              (set_velocity (Vector3d PrimFloat.nan (lit 0) (lit 0)) (start 0)))
    as (Hv & _); [right; left; reflexivity | exact Hv].
Defined.

(** A zero time step in binary64: scenario 0 with [delta_t] set to zero
    comes out of the tick bit for bit as it went in. *)
Example zero_time_step_binary64 :
  numerical_dynamics K (thin_air true) (set_delta_t (lit 0) (start 0))
  = set_delta_t (lit 0) (start 0).
Proof. vm_compute. reflexivity. Qed.

End FurtherSamples64.

Section FurtherSamplesR.

Local Open Scope R_scope.

Let K : Constants R := mars.
Let in_orbit : State R := start 0.

Lemma magnitude_in_orbit : abs (position in_orbit) = 4063200.
Proof.
  unfold abs, abs2, v3_dot; simpl. to_R.
  apply sqrt_lem_1; lra.
Qed.


(** Scenario 5 at rest against scenario 5 climbing radially at -50. *)
Lemma autopilot_throttle_antitone_witness :
  throttle (autopilot K vacuum (start 5))
  <= throttle (autopilot K vacuum at_200km).
Proof.
  apply autopilot_throttle_antitone.
  - unfold altitude. apply Req_le. reflexivity.
  - rewrite descent_rate_at_200km.
    unfold descent_rate, v3_dot; simpl. to_R. lra.
Defined.

Lemma run_ticks_throttle_range_witness :
  0 <= throttle (run_ticks K [vacuum; vacuum] in_orbit) <= 1 /\
  0 <= throttle
         (run_ticks K [vacuum] (set_autopilot_enabled true in_orbit)) <= 1.
Proof.
  destruct (run_ticks_throttle_range K [vacuum; vacuum] in_orbit)
    as (Hkeep & _).
  destruct (run_ticks_throttle_range K [vacuum]
              (set_autopilot_enabled true in_orbit)) as (_ & Hauto).
  split.
  - apply Hkeep. simpl. to_R. lra.
  - apply Hauto; [reflexivity | discriminate].
Defined.

Lemma gravity_inverse_square_witness :
  abs (gravity_acceleration K in_orbit)
  = GRAVITY K * MARS_MASS K / abs (position in_orbit) ^ 2.
Proof.
  destruct (gravity_inverse_square K in_orbit) as (_ & Hmag).
  - simpl. to_R. lra.
  - rewrite magnitude_in_orbit. lra.
  - exact Hmag.
Defined.


(** Scenario 0 (in orbit, 4063.2 km from the centre at 3247 m/s) with
    the time step set to zero. *)
Lemma zero_time_step_witness :
  numerical_dynamics K (thin_air true) (set_delta_t (lit 0) in_orbit)
  = set_delta_t (lit 0) in_orbit.
Proof.
  destruct (zero_time_step K (thin_air true) (set_delta_t (lit 0) in_orbit))
    as (_ & _ & Hid).
  - simpl. to_R. reflexivity.
  - change (position (set_delta_t (lit 0) in_orbit))
      with (position in_orbit).
    rewrite magnitude_in_orbit. lra.
  - unfold abs, abs2, v3_dot; simpl. to_R. apply sqrt_lt_R0. lra.
  - apply Hid; reflexivity.
Defined.

Lemma descent_scenarios_start_witness :
  altitude K (initialize_simulation K (blank 1)) = 10000 /\
  throttle (autopilot K vacuum (initialize_simulation K (blank 1))) = 0 /\
  altitude K (initialize_simulation K (blank 5)) = EXOSPHERE K.
Proof.
  assert (HR : 0 <= MARS_RADIUS K) by (simpl; to_R; lra).
  assert (HX : 0 <= EXOSPHERE K) by (simpl; to_R; lra).
  destruct (descent_scenarios_start K vacuum (blank 1) HR HX) as (H1 & _).
  destruct (descent_scenarios_start K vacuum (blank 5) HR HX) as (_ & H5).
  destruct (H1 eq_refl) as (Ha & _ & Ht).
  destruct (H5 eq_refl) as (Ha5 & _).
  exact (conj Ha (conj Ht Ha5)).
Defined.

End FurtherSamplesR.

(* ================================================================== *)
(** ** The deploy rule, the reachable states and the smoothness of the
       control law *)

Section Reachable.

Context {double : Type} {D : DoubleOps double}.
Local Open Scope dbl_scope.

Variable K : Constants double.

(** The parachute is DEPLOYED after a call of the autopilot exactly when
    it was DEPLOYED before or the test of line 40 passes: the altitude
    test holds and the safety check, asked about the state with the new
    throttle, answers true. *)
Theorem autopilot_deploy_rule (E : Environment double) (s : State double) :
  parachute_status (autopilot K E s) = DEPLOYED <->
  parachute_status s = DEPLOYED \/
  ((altitude K s <=? lit 150000) = true /\
   safe_to_deploy_parachute E (before_deploy_test K s) = true).
Proof.
  rewrite autopilot_parachute_status. unfold deploy_condition.
  destruct (altitude K s <=? lit 150000);
    destruct (safe_to_deploy_parachute E (before_deploy_test K s)); simpl;
    intuition discriminate.
Qed.

(** Every state the functions of [lander.cpp] reach from a scenario they
    define keeps the time step 0.1, the scenario number in 0..6 and the
    ten descriptions, and has the attitude stabilization on whenever the
    parachute is deployed. *)
Theorem reachable_invariants (s : State double) :
  reachable K s ->
  delta_t s = lit 0.1 /\
  (0 <= scenario s <= 6)%Z /\
  scenario_description s = scenario_descriptions /\
  (parachute_status s = DEPLOYED -> stabilized_attitude s = true).
Proof.
  induction 1 as [s Hn | E s _ IH | E s _ IH].
  - destruct (initialize_simulation_start K s Hn) as (Hsc & _ & _ & Hd & _).
    rewrite Hsc, Hd, (initialize_simulation_not_deployed K s Hn).
    repeat split; try apply Hn; [ | discriminate].
    unfold initialize_simulation; cbv zeta.
    change (scenario (set_scenario_description scenario_descriptions s))
      with (scenario s).
    destruct Hn as [Hlo Hhi].
    destruct (scenario s) as [| p | p];
      [ | do 3 (try destruct p as [p | p | ]) | ]; reflexivity.
  - destruct IH as (Hd & Hn & Hds & Hst).
    destruct (numerical_dynamics_flags K E s)
      as (Hd' & _ & Hn' & Hds' & Hs' & _).
    rewrite Hd', Hn', Hds', Hs', numerical_dynamics_parachute_status.
    repeat split; try assumption; try apply Hn.
    destruct (autopilot_enabled s); simpl.
    + intros _. apply orb_true_r.
    + rewrite orb_false_r. exact Hst.
  - destruct IH as (Hd & Hn & Hds & _).
    rewrite (autopilot_unfold K E s).
    destruct (deploy_condition K E s); simpl; repeat split;
      try assumption; apply Hn.
Qed.

End Reachable.

Section Smoothness.

Local Open Scope R_scope.

Variable K : Constants R.

Lemma throttle_map_lipschitz (p q : R) :
  Rabs (Spec.throttle_map p - Spec.throttle_map q) <= Rabs (p - q).
Proof.
  unfold Spec.throttle_map, Spec.Offset.
  destruct (Rle_dec p (- (0.5))), (Rle_dec q (- (0.5)));
    try destruct (Rlt_dec p (1 - 0.5)); try destruct (Rlt_dec q (1 - 0.5));
    unfold Rabs; repeat destruct Rcase_abs; lra.
Qed.

(** The control law has no jumps: between two states the throttle
    differs by at most 0.01 times the difference of the altitudes plus
    0.5 times the difference of the descent rates. *)
Theorem autopilot_throttle_lipschitz (E E' : Environment R) (s s' : State R) :
  Rabs (throttle (autopilot K E' s') - throttle (autopilot K E s))
  <= 0.01 * Rabs (altitude K s' - altitude K s)
     + 0.5 * Rabs (descent_rate s' - descent_rate s).
Proof.
  rewrite !autopilot_throttle, !throttle_command_map.
  eapply Rle_trans; [apply throttle_map_lipschitz | ].
  rewrite !Pout_const_formula.
  unfold Rabs; repeat destruct Rcase_abs; lra.
Qed.

End Smoothness.

Section ReachableSample.

Local Open Scope dbl_scope.

(** Scenario 1 after a call of the autopilot that deploys and a tick. *)
Lemma reachable_invariants_witness :
  delta_t
    (numerical_dynamics mars (thin_air true)
       (autopilot mars (thin_air true)
          (initialize_simulation mars (blank 1 : State PrimFloat.float))))
  = lit 0.1 /\
  stabilized_attitude
    (numerical_dynamics mars (thin_air true)
       (autopilot mars (thin_air true)
          (initialize_simulation mars (blank 1 : State PrimFloat.float))))
  = true.
Proof.
  destruct (reachable_invariants mars
              (numerical_dynamics mars (thin_air true)
                 (autopilot mars (thin_air true)
                    (initialize_simulation mars
                       (blank 1 : State PrimFloat.float)))))
    as (Hd & _ & _ & Hst).
  - apply reachable_tick, reachable_autopilot, reachable_start.
    split; discriminate.
  - split; [exact Hd | apply Hst; vm_compute; reflexivity].
Defined.

End ReachableSample.
